(** * Orchestrator.py: the per-repository decision pipeline

    A shallow embedding of the decision logic of [src/Orchestrator.py]:
    the manifest (ledger) and its run-start reset pass, the liveness probe,
    the file-tree classifier, the Render deployment client, the self-healing
    retry loop and [process_repo].

    Conventions of the embedding.
    - Python [str] values are Rocq [string]s read as ASCII text: [lower],
      [capitalize], [strip], slicing, [len] and the regular-expression class
      [\s] are Python's on text whose characters are all in the ASCII range
      ([Py.isascii]); a statement that depends on what these do to the
      characters of a text is made for such text.  Python [int]s are [Z].
    - The dictionaries stored under [manifest["projects"]] are the images of
      [asdict(project)], so a ledger entry is a [Project] record and the
      ledger a [gmap string Project].
    - Every call that leaves the process (HTTP requests, git, the agent CLI,
      the clock, the working copy) is an [event]; a function of the source
      that performs such calls is a [prog], a finite tree of events, and
      [run] plays it against a [world] that answers each event knowing the
      whole history of earlier calls.  Logging is not modelled. *)

From stdpp Require Import base decidable option list strings gmap pretty sorting.
From Stdlib Require Import ZArith Ascii.

Local Open Scope Z_scope.

(* ===================================================================== *)
(** ** Python string operations (ASCII) *)
(* ===================================================================== *)

Module Py.

Definition is_upper (c : ascii) : bool :=
  let n := nat_of_ascii c in (65 <=? n)%nat && (n <=? 90)%nat.
Definition is_lower (c : ascii) : bool :=
  let n := nat_of_ascii c in (97 <=? n)%nat && (n <=? 122)%nat.

Definition lower_char (c : ascii) : ascii :=
  if is_upper c then ascii_of_nat (nat_of_ascii c + 32) else c.
Definition upper_char (c : ascii) : ascii :=
  if is_lower c then ascii_of_nat (nat_of_ascii c - 32) else c.

(** [s.lower()] *)
Fixpoint lower (s : string) : string :=
  match s with
  | EmptyString => EmptyString
  | String c s' => String (lower_char c) (lower s')
  end.

(** [s.capitalize()]: first character upper-cased, the rest lower-cased. *)
Definition capitalize (s : string) : string :=
  match s with
  | EmptyString => EmptyString
  | String c s' => String (upper_char c) (lower s')
  end.

(** [str.isspace] on one ASCII character, which is also the class [\s]
    of [re] on [str] patterns: tab, LF, VT, FF, CR, FS, GS, RS, US, space. *)
Definition isspace (c : ascii) : bool :=
  let n := nat_of_ascii c in
  ((9 <=? n)%nat && (n <=? 13)%nat) || ((28 <=? n)%nat && (n <=? 32)%nat).

Fixpoint lstrip (s : string) : string :=
  match s with
  | EmptyString => EmptyString
  | String c s' => if isspace c then lstrip s' else s
  end.

(** [s.strip()]: leading and trailing whitespace removed. *)
Definition strip (s : string) : string :=
  String.rev (lstrip (String.rev (lstrip s))).

(** [len(s)] *)
Definition len (s : string) : Z := Z.of_nat (String.length s).

(** [s[:n]] for a literal [n >= 0]. *)
Fixpoint take (n : nat) (s : string) : string :=
  match n, s with
  | S n', String c s' => String c (take n' s')
  | _, _ => EmptyString
  end.

(** [s.startswith(p)] *)
Fixpoint startswith (s p : string) : bool :=
  match p, s with
  | EmptyString, _ => true
  | String a p', String b s' => if Ascii.eqb a b then startswith s' p' else false
  | String _ _, EmptyString => false
  end.

(** [s.endswith(p)] *)
Definition endswith (s p : string) : bool :=
  startswith (String.rev s) (String.rev p).

(** [sub in s] for strings. *)
Fixpoint contains (s sub : string) : bool :=
  startswith s sub ||
  match s with
  | EmptyString => false
  | String _ s' => contains s' sub
  end.

(** Truthiness of a [str], and [a or b] on strings. *)
Definition truthy (s : string) : bool :=
  match s with EmptyString => false | _ => true end.
Definition or_ (a b : string) : string := if truthy a then a else b.

(** [str(n)] and [{n}] inside an f-string, for an [int]. *)
Definition str (n : Z) : string := pretty n.


Global Arguments take : simpl never.
Global Arguments str : simpl never.
Global Arguments lower : simpl never.
Global Arguments strip : simpl never.

End Py.

(* ===================================================================== *)
(** ** Data model *)
(* ===================================================================== *)

(** [ProjectStatus]: the values of the enumeration, which is what the code
    stores and compares ([ProjectStatus.X.value]). *)
Module ProjectStatus.
Definition PENDING : string := "pending".
Definition ANALYSING : string := "analysing".
Definition SKIPPED : string := "skipped".
Definition COMPLETED : string := "completed".
Definition DEPLOYED : string := "deployed".
Definition ALREADY_LIVE : string := "already-live".
Definition FAILED : string := "failed".
End ProjectStatus.
Import ProjectStatus.

Record Project := mkProject {
  name : string;
  github_url : string;
  description : string;
  language : string;
  is_fork : bool;
  status : string;
  deploy_url : string;
  render_service_id : string;
  tech_stack : list string;
  category : string;
  skip_reason : string;
  error : string;
  completed_at : string;
  gif_url : string;
  existing_deploy_urls : list string;
}.

(** [Project(name=..., github_url=..., description=..., language=...,
    is_fork=...)] with the dataclass defaults for the other fields. *)
Definition new_project (n url desc lang : string) (frk : bool) : Project :=
  {| name := n; github_url := url; description := desc; language := lang;
     is_fork := frk; status := PENDING; deploy_url := ""; render_service_id := "";
     tech_stack := []; category := ""; skip_reason := ""; error := "";
     completed_at := ""; gif_url := ""; existing_deploy_urls := [] |}.

(** Attribute assignments [project.f = v]. *)
Definition set_status (v : string) (p : Project) : Project :=
  mkProject (name p) (github_url p) (description p) (language p) (is_fork p)
    v (deploy_url p) (render_service_id p) (tech_stack p) (category p)
    (skip_reason p) (error p) (completed_at p) (gif_url p) (existing_deploy_urls p).
Definition set_deploy_url (v : string) (p : Project) : Project :=
  mkProject (name p) (github_url p) (description p) (language p) (is_fork p)
    (status p) v (render_service_id p) (tech_stack p) (category p)
    (skip_reason p) (error p) (completed_at p) (gif_url p) (existing_deploy_urls p).
Definition set_description (v : string) (p : Project) : Project :=
  mkProject (name p) (github_url p) v (language p) (is_fork p)
    (status p) (deploy_url p) (render_service_id p) (tech_stack p) (category p)
    (skip_reason p) (error p) (completed_at p) (gif_url p) (existing_deploy_urls p).
Definition set_tech_stack (v : list string) (p : Project) : Project :=
  mkProject (name p) (github_url p) (description p) (language p) (is_fork p)
    (status p) (deploy_url p) (render_service_id p) v (category p)
    (skip_reason p) (error p) (completed_at p) (gif_url p) (existing_deploy_urls p).
Definition set_category (v : string) (p : Project) : Project :=
  mkProject (name p) (github_url p) (description p) (language p) (is_fork p)
    (status p) (deploy_url p) (render_service_id p) (tech_stack p) v
    (skip_reason p) (error p) (completed_at p) (gif_url p) (existing_deploy_urls p).
Definition set_skip_reason (v : string) (p : Project) : Project :=
  mkProject (name p) (github_url p) (description p) (language p) (is_fork p)
    (status p) (deploy_url p) (render_service_id p) (tech_stack p) (category p)
    v (error p) (completed_at p) (gif_url p) (existing_deploy_urls p).
Definition set_error (v : string) (p : Project) : Project :=
  mkProject (name p) (github_url p) (description p) (language p) (is_fork p)
    (status p) (deploy_url p) (render_service_id p) (tech_stack p) (category p)
    (skip_reason p) v (completed_at p) (gif_url p) (existing_deploy_urls p).
Definition set_gif_url (v : string) (p : Project) : Project :=
  mkProject (name p) (github_url p) (description p) (language p) (is_fork p)
    (status p) (deploy_url p) (render_service_id p) (tech_stack p) (category p)
    (skip_reason p) (error p) (completed_at p) v (existing_deploy_urls p).
Definition set_completed_at (v : string) (p : Project) : Project :=
  mkProject (name p) (github_url p) (description p) (language p) (is_fork p)
    (status p) (deploy_url p) (render_service_id p) (tech_stack p) (category p)
    (skip_reason p) (error p) v (gif_url p) (existing_deploy_urls p).

(** The manifest: [{"projects": {...}, "portfolio_url": ..., "last_run": ...}]. *)
Record Manifest := mkManifest {
  projects : gmap string Project;
  portfolio_url : string;
  last_run : string;
}.

(** What [load_manifest] returns when no manifest file exists. *)
Definition empty_manifest : Manifest :=
  {| projects := ∅; portfolio_url := ""; last_run := "" |}.

(** [manifest["projects"][project.name] = asdict(project)] in [main]. *)
Definition store_project (p : Project) (m : Manifest) : Manifest :=
  {| projects := <[name p := p]> (projects m);
     portfolio_url := portfolio_url m; last_run := last_run m |}.

(* ===================================================================== *)
(** ** The run-start reset pass *)
(* ===================================================================== *)

(** The statuses that [reset_manifest_for_retry] sends back to pending. *)
Definition reset_statuses : list string :=
  [FAILED; PENDING; SKIPPED; ANALYSING; COMPLETED].

(** The body of the loop of [reset_manifest_for_retry] on one entry. *)
Definition reset_entry (data : Project) : Project :=
  if bool_decide (status data ∈ reset_statuses)
  then set_skip_reason "" (set_error "" (set_status PENDING data))
  else data.

Definition reset_manifest_for_retry (manifest : Manifest) : Manifest :=
  {| projects := reset_entry <$> projects manifest;
     portfolio_url := portfolio_url manifest;
     last_run := last_run manifest |}.


(* ===================================================================== *)
(** ** External calls: events, programs and worlds *)
(* ===================================================================== *)

(** A call that can raise: [Raised msg] carries [str(e)]. *)
Inductive exn_or (A : Type) : Type :=
| Raised (msg : string)
| Returned (a : A).
Arguments Raised {A} msg.
Arguments Returned {A} a.

(** One entry of the [tree] array of the GitHub git-trees API. *)
Record TreeItem := mkTreeItem { path : string; type : string }.

(** A [requests.Response]: [status_code], [text], and what
    [resp.json().get("tree", [])] yields; [None] when decoding the body or
    reading an item raises. *)
Record Response := mkResponse {
  status_code : Z;
  text : string;
  json_tree : option (list TreeItem);
}.

(** The first service of a [render.yaml], each key as [svc.get(key)]:
    [None] for a key that is absent.  The record stands for a service that is
    a mapping whose values are strings; a key present with a null value, and
    a descriptor on which [build_render_payload] raises (an empty service
    list, a service that is not a mapping), have no counterpart here. *)
Record RenderService := mkRenderService {
  svc_type : option string;
  svc_runtime : option string;
  svc_buildCommand : option string;
  svc_startCommand : option string;
  svc_staticPublishPath : option string;
}.

(** The JSON body posted to the Render API. *)
Inductive ServiceDetails :=
| StaticDetails (buildCommand publishPath : string)
| WebDetails (buildCommand startCommand plan runtime : string).

Record Payload := mkPayload {
  payload_type : string;
  payload_name : string;
  payload_ownerId : string;
  payload_repo : string;
  payload_autoDeploy : string;
  payload_branch : string;
  payload_serviceDetails : ServiceDetails;
}.

(** The three prompt templates, with the values interpolated into them. The
    wording of the templates is not modelled. *)
Inductive Prompt :=
| Tier1Prompt (project_name : string)
| Tier2Prompt (project_name : string)
| FixPrompt (error_text : string) (project_name : string).

Inductive event : Type → Type :=
(** [requests.get(url, timeout=t, ...)] *)
| RequestsGet (url : string) (timeout : Z) : event (exn_or Response)
(** [requests.post(url, headers=..., json=payload)] *)
| RequestsPost (url : string) (payload : Payload) : event (exn_or Response)
(** [time.sleep(seconds)] *)
| Sleep (seconds : Z) : event unit
(** [datetime.utcnow().isoformat()] *)
| UtcNow : event string
(** the [try] block of phase 2: [mkdir] then [clone_repo(clone_url, dest)] *)
| CloneRepo (clone_url dest : string) : event (exn_or unit)
(** [quick_fix_static_repo(project_dir, name)] *)
| QuickFixStaticRepo (project_dir project_name : string) : event unit
(** [run_claude_code(project_dir, prompt, max_turns)] *)
| RunClaudeCode (project_dir : string) (prompt : Prompt) (max_turns : Z)
    : event (bool * string)
(** [push_changes(project_dir, project_name)] *)
| PushChanges (project_dir project_name : string) : event unit
(** reading [project_dir / "render.yaml"]: [None] when the file is absent or
    has no [services] key *)
| ReadRenderYaml (project_dir : string) : event (option RenderService).

(** A finite program over the events. *)
Inductive prog (A : Type) : Type :=
| Ret (a : A)
| Vis {X : Type} (e : event X) (k : X → prog A).
Arguments Ret {A} a.
Arguments Vis {A X} e k.

Fixpoint bind {A B : Type} (p : prog A) (f : A → prog B) : prog B :=
  match p with
  | Ret a => f a
  | Vis e k => Vis e (λ x, bind (k x) f)
  end.

Definition trigger {X : Type} (e : event X) : prog X := Vis e Ret.

Notation "x <- p ;; q" := (bind p (λ x, q))
  (at level 100, p at next level, right associativity, only parsing).
Notation "p ;; q" := (bind p (λ _, q))
  (at level 100, right associativity, only parsing).

(** A performed call with its answer. *)
Record call := Call { call_type : Type; call_event : event call_type;
                      call_result : call_type }.
Arguments Call {call_type} call_event call_result.

(** The outside world: it answers an event knowing every earlier call. *)
Definition world : Type := ∀ X : Type, list call → event X → X.

(** [run w hist p]: the result of [p] and the calls it made, in order, when
    [hist] is what happened before. *)
Fixpoint run {A : Type} (w : world) (hist : list call) (p : prog A)
  : A * list call :=
  match p with
  | Ret a => (a, [])
  | Vis e k =>
      let x := w _ hist e in
      let r := run w (hist ++ [Call e x]) (k x) in
      (r.1, Call e x :: r.2)
  end.

(** Projections of a trace. *)
Definition get_url (c : call) : option string :=
  match call_event c with RequestsGet u _ => Some u | _ => None end.
Definition got_urls (tr : list call) : list string := omap get_url tr.

Definition is_agent_call (c : call) : bool :=
  match call_event c with RunClaudeCode _ _ _ => true | _ => false end.
(** The answers to the POSTs of a trace, and the sleeps, in order. *)
Definition post_answer (c : call) : option (exn_or Response) :=
  match c with
  | Call (RequestsPost _ _) r => Some r
  | _ => None
  end.
Definition post_answers (tr : list call) : list (exn_or Response) :=
  omap post_answer tr.
Definition sleep_of (c : call) : option Z :=
  match call_event c with Sleep s => Some s | _ => None end.
Definition sleeps (tr : list call) : list Z := omap sleep_of tr.

(* ===================================================================== *)
(** ** Configuration and repository metadata *)
(* ===================================================================== *)

(** The module-level constants read from the environment. *)
Record Config := mkConfig {
  GITHUB_USERNAME : string;
  GITHUB_TOKEN : string;
  RENDER_API_KEY : string;
  RENDER_OWNER_ID : string;
  WORKSPACE : string;
  SKIP_EXISTING : bool;
  DRY_RUN : bool;
}.

(** [SKIP_REPOS] *)
Definition SKIP_REPOS : list string := ["mathew-harvey"; ".github"].

(** One element of the repository listing; an [option] field is a key whose
    value can be [null]. *)
Record Repo := mkRepo {
  repo_name : string;
  repo_html_url : string;
  repo_clone_url : string;
  repo_description : option string;
  repo_language : option string;
  repo_fork : bool;
  repo_archived : bool;
  repo_size : Z;
  repo_homepage : option string;
}.

(** [repo.get(key) or ""] *)
Definition or_empty (o : option string) : string := default "" o.

(* ===================================================================== *)
(** ** Live site detection *)
(* ===================================================================== *)

(** The character class of the pattern: anything but whitespace, the two
    angle brackets and the double quote.  On ASCII text [Py.isspace] is the
    class [\s] of the pattern. *)
Definition url_char (c : ascii) : bool :=
  negb (Py.isspace c
        || (nat_of_ascii c =? 60)%nat      (* < *)
        || (nat_of_ascii c =? 62)%nat      (* > *)
        || (nat_of_ascii c =? 34)%nat).    (* double quote *)

(** The longest prefix made of [url_char]s (the greedy [+]). *)
Fixpoint url_span (s : string) : string :=
  match s with
  | EmptyString => EmptyString
  | String c s' => if url_char c then String c (url_span s') else EmptyString
  end.

Fixpoint drop_str (n : nat) (s : string) : string :=
  match n, s with
  | S n', String _ s' => drop_str n' s'
  | _, _ => s
  end.

(** A match of the pattern [https?://C+], [C] the class above, anchored at
    the start of [s]. *)
Definition match_url (s : string) : option string :=
  let after scheme :=
    match url_span (drop_str (String.length scheme) s) with
    | EmptyString => None
    | body => Some (scheme +:+ body)
    end in
  if Py.startswith s "https://" then after "https://"
  else if Py.startswith s "http://" then after "http://"
  else None.

(** [re.findall]: leftmost matches, not overlapping; [skip] characters of
    the last match are still to be passed over. *)
Fixpoint findall_urls_from (skip : nat) (s : string) : list string :=
  match s with
  | EmptyString => []
  | String _ s' =>
      match skip with
      | S k => findall_urls_from k s'
      | O =>
          match match_url s with
          | Some m => m :: findall_urls_from (String.length m - 1) s'
          | None => findall_urls_from 0 s'
          end
      end
  end.
Definition findall_urls (desc : string) : list string := findall_urls_from 0 desc.

(** [list(dict.fromkeys(urls))]: duplicates dropped, first occurrences kept
    in order. *)
Fixpoint dedupe_from (seen : gset string) (urls : list string) : list string :=
  match urls with
  | [] => []
  | u :: rest =>
      if bool_decide (u ∈ seen) then dedupe_from seen rest
      else u :: dedupe_from ({[u]} ∪ seen) rest
  end.
Definition dedupe (urls : list string) : list string := dedupe_from ∅ urls.

Definition get_candidate_urls (cfg : Config) (repo : Repo) : list string :=
  let name := repo_name repo in
  let username := Py.lower (GITHUB_USERNAME cfg) in
  let urls :=
    [ "https://" +:+ username +:+ ".github.io/" +:+ name +:+ "/";
      "https://" +:+ username +:+ ".github.io/" +:+ name;
      "https://mh-" +:+ Py.take 30 name +:+ ".onrender.com";
      "https://" +:+ name +:+ ".onrender.com" ] in
  let urls :=
    match repo_homepage repo with
    | Some homepage =>
        if Py.truthy homepage && Py.startswith homepage "http"
        then urls ++ [homepage] else urls
    | None => urls
    end in
  let desc := or_empty (repo_description repo) in
  dedupe (urls ++ findall_urls desc).

Definition error_signals : list string :=
  [ "404"; "not found"; "page not found"; "site not found"; "suspended";
    "there isn't a github pages site"; "this page could not be found";
    "404.html" ].

(** The part of [check_url_live] that inspects a response.  The slice, the
    lower-casing, the stripping and the length are Python's when the first
    2000 characters of the body are ASCII. *)
Definition page_is_live (resp : Response) : bool :=
  if 400 <=? status_code resp then false
  else
    let body := Py.lower (Py.take 2000 (text resp)) in
    if Py.len (Py.strip body) <? 100 then false
    else if existsb (λ sig, Py.contains body sig) error_signals then false
    else true.

Definition check_url_live (url : string) : prog bool :=
  r <- trigger (RequestsGet url 12) ;;
  match r with
  | Raised _ => Ret false
  | Returned resp => Ret (page_is_live resp)
  end.

(** The [for url in candidates] loop of [find_existing_deployment]. *)
Fixpoint probe_candidates (candidates : list string) : prog (bool * string) :=
  match candidates with
  | [] => Ret (false, "")
  | url :: rest =>
      live <- check_url_live url ;;
      if live then Ret (true, url) else probe_candidates rest
  end.

Definition find_existing_deployment (cfg : Config) (repo : Repo)
  : prog (bool * string) :=
  probe_candidates (get_candidate_urls cfg repo).

(* ===================================================================== *)
(** ** Classification from the file tree *)
(* ===================================================================== *)

Definition tree_url (cfg : Config) (name branch : string) : string :=
  "https://api.github.com/repos/" +:+ GITHUB_USERNAME cfg +:+ "/" +:+ name
    +:+ "/git/trees/" +:+ branch +:+ "?recursive=1".

(** The set comprehension over [tree], evaluated when the status is 200; the
    set stays empty otherwise and when reading the body raises. *)
Definition files_of_response (resp : Response) : gset string :=
  if status_code resp =? 200 then
    match json_tree resp with
    | Some tree =>
        list_to_set
          (map (λ item, Py.lower (path item))
               (filter (λ item, type item = "blob") tree))
    | None => ∅
    end
  else ∅.

(** The [try] block of [classify_repo_from_api]: any exception leaves
    [files] empty. *)
Definition fetch_files (cfg : Config) (name : string) : prog (gset string) :=
  r <- trigger (RequestsGet (tree_url cfg name "main") 10) ;;
  match r with
  | Raised _ => Ret ∅
  | Returned resp =>
      if status_code resp =? 404 then
        r2 <- trigger (RequestsGet (tree_url cfg name "master") 10) ;;
        match r2 with
        | Raised _ => Ret ∅
        | Returned resp2 => Ret (files_of_response resp2)
        end
      else Ret (files_of_response resp)
  end.

(** [any(P(f) for f in files)] and [x in files]. *)
Definition any_file (P : string → bool) (files : gset string) : bool :=
  existsb P (elements files).
Definition in_files (x : string) (files : gset string) : bool :=
  bool_decide (x ∈ files).

(** The file-based signals. *)
Record Signals := mkSignals {
  has_index_html : bool;
  has_package_json : bool;
  has_requirements : bool;
  has_dockerfile : bool;
  has_render_yaml : bool;
  has_readme : bool;
  has_html_files : bool;
  has_js_files : bool;
  has_py_files : bool;
  has_cs_files : bool;
  has_react : bool;
  has_server : bool;
  has_css_files : bool;
  file_count : Z;
}.

Definition derive_signals (files : gset string) : Signals :=
  {| has_index_html := any_file (λ f, Py.endswith f "index.html") files;
     has_package_json := in_files "package.json" files;
     has_requirements := in_files "requirements.txt" files;
     has_dockerfile := in_files "dockerfile" files || in_files "Dockerfile" files;
     has_render_yaml := in_files "render.yaml" files;
     has_readme := in_files "readme.md" files || in_files "README.md" files;
     has_html_files := any_file (λ f, Py.endswith f ".html") files;
     has_js_files :=
       any_file (λ f, Py.endswith f ".js" || Py.endswith f ".jsx"
                      || Py.endswith f ".ts" || Py.endswith f ".tsx") files;
     has_py_files := any_file (λ f, Py.endswith f ".py") files;
     has_cs_files :=
       any_file (λ f, Py.endswith f ".cs" || Py.endswith f ".csproj") files;
     has_react :=
       any_file (λ f, Py.contains f "react") files
       || any_file (λ f, Py.endswith f ".jsx" || Py.endswith f ".tsx") files;
     has_server :=
       existsb (λ n, in_files n files)
         ["server.js"; "app.js"; "index.js"; "server.py"; "app.py"; "main.py"];
     has_css_files := any_file (λ f, Py.endswith f ".css") files;
     file_count := Z.of_nat (size files) |}.

(** The tags appended from file evidence, in the order of the [if]s. *)
Definition evidence_tags (s : Signals) : list string :=
  (if has_html_files s then ["HTML"] else [])
  ++ (if has_css_files s then ["CSS"] else [])
  ++ (if has_js_files s then ["JavaScript"] else [])
  ++ (if has_react s then ["React"] else [])
  ++ (if has_py_files s then ["Python"] else [])
  ++ (if has_cs_files s then ["C#"] else []).

(** [tech_stack] after the last [if]: [language] is the lower-cased declared
    language. *)
Definition build_tech_stack (language : string) (s : Signals) : list string :=
  let tech_stack := evidence_tags s in
  if Py.truthy language
     && negb (bool_decide (Py.capitalize language ∈ map Py.lower tech_stack))
  then Py.capitalize language :: tech_stack
  else tech_stack.

Definition determine_deploy_type (s : Signals) : string :=
  if has_cs_files s then "docker"
  else if has_py_files s && has_server s then "python"
  else if has_package_json s && has_server s then "node"
  else if has_package_json s && has_react s then "node"
  else if has_html_files s || has_index_html s then "static"
  else if has_package_json s then "node"
  else if has_py_files s then "python"
  else "static".

Definition determine_category (language : string) (s : Signals) : string :=
  if has_react s || (has_package_json s && has_server s) then "web-app"
  else if has_server s && negb (has_html_files s) then "api"
  else if has_html_files s && negb (has_package_json s) then "static-site"
  else if has_py_files s && negb (has_html_files s) then "cli-tool"
  else if has_cs_files s then "api"
  else if bool_decide (language ∈ ["html"; "css"; "javascript"]) then "static-site"
  else "other".

Definition determine_tier (s : Signals) (deploy_type : string) : Z :=
  if file_count s <=? 2 then 2
  else if String.eqb deploy_type "static" && has_index_html s
          && negb (has_package_json s) then 0
  else if String.eqb deploy_type "static" && has_html_files s
          && negb (has_package_json s) then 0
  else if has_render_yaml s && has_readme s && has_package_json s then 1
  else if has_cs_files s || has_dockerfile s then 2
  else if has_package_json s && negb (has_server s) && negb (has_react s) then 2
  else 1.

(** The dictionary returned by [classify_repo_from_api]; the signals it
    reports are read off [cls_signals]. *)
Record Classification := mkClassification {
  tier : Z;
  deploy_type : string;
  cls_category : string;
  cls_tech_stack : list string;
  cls_signals : Signals;
}.

(** [classify_repo_from_api] after the file tree has been fetched. *)
Definition classify_files (language : string) (files : gset string)
  : Classification :=
  let s := derive_signals files in
  let dt := determine_deploy_type s in
  {| tier := determine_tier s dt;
     deploy_type := dt;
     cls_category := determine_category language s;
     cls_tech_stack := build_tech_stack language s;
     cls_signals := s |}.

Definition classify_repo_from_api (cfg : Config) (repo : Repo)
  : prog Classification :=
  let name := repo_name repo in
  let language := Py.lower (or_empty (repo_language repo)) in
  files <- fetch_files cfg name ;;
  Ret (classify_files language files).

(* ===================================================================== *)
(** ** Claude Code integration *)
(* ===================================================================== *)

Definition complete_project_tiered (project_dir : string) (tier : Z)
    (project_name : string) : prog bool :=
  if tier <=? 0 then Ret true
  else
    let prompt := if tier =? 1 then Tier1Prompt project_name
                  else Tier2Prompt project_name in
    let max_turns := if tier =? 1 then 15 else 30 in
    r <- trigger (RunClaudeCode project_dir prompt max_turns) ;;
    Ret r.1.

(* ===================================================================== *)
(** ** Render deployment *)
(* ===================================================================== *)

(** [f"mh-{project.name[:30]}"] *)
Definition service_name_of (project : Project) : string :=
  "mh-" +:+ Py.take 30 (name project).

(** [f"https://{service_name}.onrender.com"] *)
Definition onrender_url (service_name : string) : string :=
  "https://" +:+ service_name +:+ ".onrender.com".

(** [svc.get("type") == "web" and svc.get("runtime") not in ("static", None)] *)
Definition is_web_service (svc : RenderService) : bool :=
  bool_decide (svc_type svc = Some "web")
  && negb (bool_decide (svc_runtime svc = Some "static")
           || bool_decide (svc_runtime svc = None)).

Definition payload_of (cfg : Config) (project : Project)
    (config : option RenderService) : Payload :=
  let service_name := service_name_of project in
  let static build_command publish_path :=
    mkPayload "static_site" service_name (RENDER_OWNER_ID cfg)
      (github_url project) "yes" "main"
      (StaticDetails build_command publish_path) in
  match config with
  | Some svc =>
      if is_web_service svc then
        mkPayload "web_service" service_name (RENDER_OWNER_ID cfg)
          (github_url project) "yes" "main"
          (WebDetails (default "npm install" (svc_buildCommand svc))
                      (default "npm start" (svc_startCommand svc))
                      "free"
                      (default "node" (svc_runtime svc)))
      else
        static (default "" (svc_buildCommand svc))
               (default "./" (svc_staticPublishPath svc))
  | None => static "" "./"
  end.

Definition build_render_payload (cfg : Config) (project : Project)
    (project_dir : string) : prog Payload :=
  config <- trigger (ReadRenderYaml project_dir) ;;
  Ret (payload_of cfg project config).

(** [range(n)] *)
Definition range (n : nat) : list Z := map Z.of_nat (seq 0 n).

Definition RENDER_SERVICES_URL : string := "https://api.render.com/v1/services".

(** The [for api_attempt in range(3)] loop of [deploy_to_render], and the
    two statements after it. *)
Fixpoint post_with_backoff (payload : Payload) (service_name : string)
    (attempts : list Z) : prog (option string * string) :=
  match attempts with
  | [] => Ret (None, "Rate limit exceeded after retries")
  | api_attempt :: rest =>
      r <- trigger (RequestsPost RENDER_SERVICES_URL payload) ;;
      match r with
      | Raised msg => Ret (None, msg)
      | Returned resp =>
          if bool_decide (status_code resp ∈ [200; 201]) then
            Ret (Some (onrender_url service_name), "")
          else if status_code resp =? 429 then
            let wait_time := 30 * (api_attempt + 1) in
            trigger (Sleep wait_time) ;;
            post_with_backoff payload service_name rest
          else
            let error_text := Py.take 500 (text resp) in
            Ret (None, "Render API " +:+ Py.str (status_code resp) +:+ ": "
                         +:+ error_text)
      end
  end.

Definition deploy_to_render (cfg : Config) (project : Project)
    (project_dir : string) : prog (option string * string) :=
  if negb (Py.truthy (RENDER_API_KEY cfg)) then Ret (None, "No RENDER_API_KEY set")
  else
    payload <- build_render_payload cfg project project_dir ;;
    let service_name := payload_name payload in
    if DRY_RUN cfg then Ret (Some (onrender_url service_name), "")
    else post_with_backoff payload service_name (range 3).

(** Truthiness of an [Optional[str]]. *)
Definition url_truthy (o : option string) : bool :=
  match o with Some u => Py.truthy u | None => false end.

(** The test that guards the self-healing step:
    ["rate limit" in error.lower() or "Rate limit" in error]. *)
Definition is_rate_limit_error (error : string) : bool :=
  Py.contains (Py.lower error) "rate limit" || Py.contains error "Rate limit".

(** [range(1, max_retries + 1)] *)
Definition retry_attempts (max_retries : Z) : list Z :=
  map (λ i, 1 + Z.of_nat i) (seq 0 (Z.to_nat max_retries)).

(** The [for attempt in ...] loop of [deploy_with_retry]; falling out of the
    loop and [break] both reach [return None]. *)
Fixpoint retry_loop (cfg : Config) (project : Project) (project_dir : string)
    (max_retries : Z) (attempts : list Z) : prog (option string) :=
  match attempts with
  | [] => Ret None
  | attempt :: rest =>
      r <- deploy_to_render cfg project project_dir ;;
      let deploy_url := r.1 in
      let error := r.2 in
      if url_truthy deploy_url then Ret deploy_url
      else if negb (Py.truthy error) || (max_retries <=? attempt) then Ret None
      else if is_rate_limit_error error then Ret None
      else
        let fix_prompt := FixPrompt error (name project) in
        a <- trigger (RunClaudeCode project_dir fix_prompt 15) ;;
        if a.1 then
          trigger (PushChanges project_dir (name project)) ;;
          retry_loop cfg project project_dir max_retries rest
        else Ret None
  end.

Definition deploy_with_retry (cfg : Config) (project : Project)
    (project_dir : string) (max_retries : Z) : prog (option string) :=
  retry_loop cfg project project_dir max_retries (retry_attempts max_retries).

(* ===================================================================== *)
(** ** Main orchestration: one repository *)
(* ===================================================================== *)

Definition should_skip_repo (repo : Repo) : bool * string :=
  let name := Py.lower (repo_name repo) in
  if bool_decide (name ∈ SKIP_REPOS) then (true, "In skip list")
  else if repo_fork repo then (true, "Fork")
  else if repo_archived repo then (true, "Archived")
  else if repo_size repo =? 0 then (true, "Empty repo")
  else (false, "").

(** The first [if] of [process_repo]: the ledger entry that is returned as it
    is, when there is one. *)
Definition cached_project (cfg : Config) (name : string) (manifest : Manifest)
  : option Project :=
  if SKIP_EXISTING cfg then
    match projects manifest !! name with
    | Some existing =>
        if bool_decide (status existing ∈ [DEPLOYED; ALREADY_LIVE])
        then Some existing else None
    | None => None
    end
  else None.

(** [classification["tech_stack"] or ([project.language] if project.language
    else [])] *)
Definition tech_stack_or_language (cls : Classification) (project : Project)
  : list string :=
  match cls_tech_stack cls with
  | [] => if Py.truthy (language project) then [language project] else []
  | ts => ts
  end.

(** The three assignments made from a classification; [fallback] is the
    category used when the classifier's is empty. *)
Definition record_classification (cls : Classification) (fallback : string)
    (repo : Repo) (project : Project) : Project :=
  let project := set_tech_stack (tech_stack_or_language cls project) project in
  let project := set_category (Py.or_ (cls_category cls) fallback) project in
  if negb (Py.truthy (description project))
  then set_description (Py.or_ (or_empty (repo_description repo)) (repo_name repo))
         project
  else project.

Definition process_repo (cfg : Config) (repo : Repo) (manifest : Manifest)
  : prog Project :=
  let name := repo_name repo in
  let project_dir := WORKSPACE cfg +:+ "/repos/" +:+ name in
  match cached_project cfg name manifest with
  | Some existing => Ret existing
  | None =>
    let project :=
      new_project name (repo_html_url repo) (or_empty (repo_description repo))
        (or_empty (repo_language repo)) (repo_fork repo) in
    let sk := should_skip_repo repo in
    if sk.1 then Ret (set_skip_reason sk.2 (set_status SKIPPED project))
    else
      (* Phase 0 *)
      found <- find_existing_deployment cfg repo ;;
      if found.1 then
        let project := set_deploy_url found.2 (set_status ALREADY_LIVE project) in
        now <- trigger UtcNow ;;
        let project := set_completed_at now project in
        classification <- classify_repo_from_api cfg repo ;;
        Ret (record_classification classification "web-app" repo project)
      else
        (* Phase 1 *)
        classification <- classify_repo_from_api cfg repo ;;
        let tier := tier classification in
        let project := record_classification classification "other" repo project in
        if file_count (cls_signals classification) <=? 1 then
          Ret (set_skip_reason "Empty or README-only repo"
                 (set_status SKIPPED project))
        else if DRY_RUN cfg then
          now <- trigger UtcNow ;;
          Ret (set_completed_at now (set_status COMPLETED project))
        else
          (* Phase 2 *)
          cloned <- trigger (CloneRepo (repo_clone_url repo) project_dir) ;;
          match cloned with
          | Raised e =>
              Ret (set_error ("Clone failed: " +:+ e) (set_status FAILED project))
          | Returned _ =>
              (* Phase 3 *)
              success <-
                (if tier =? 0 then
                   trigger (QuickFixStaticRepo project_dir name) ;; Ret true
                 else complete_project_tiered project_dir tier name) ;;
              if negb success then
                Ret (set_error "Completion failed" (set_status FAILED project))
              else
                trigger (PushChanges project_dir name) ;;
                let project := set_status COMPLETED project in
                (* Phase 4 *)
                deploy_url <- deploy_with_retry cfg project project_dir 2 ;;
                let project :=
                  if url_truthy deploy_url
                  then set_status DEPLOYED
                         (set_deploy_url (default "" deploy_url) project)
                  else project in
                now <- trigger UtcNow ;;
                Ret (set_completed_at now project)
          end
  end.

(* ===================================================================== *)
(** ** Statements of the specification, and sample inputs *)
(* ===================================================================== *)

(** The statuses the reset pass must leave alone. *)
Definition sticky_statuses : list string := [DEPLOYED; ALREADY_LIVE].

(** The tier rules as the specification lists them, read on a file listing
    and a deploy type: each rule is a condition and the tier it yields, and
    the last rule is the default. *)
Definition spec_tier_rules (files : gset string) (deploy_type : string)
  : list (bool * Z) :=
  let file_count := size files in
  let static := bool_decide (deploy_type = "static") in
  let index_html := any_file (λ f, Py.endswith f "index.html") files in
  let any_html := any_file (λ f, Py.endswith f ".html") files in
  let package_manifest := in_files "package.json" files in
  let descriptor := in_files "render.yaml" files in
  let readme := in_files "readme.md" files || in_files "README.md" files in
  let dockerfile := in_files "dockerfile" files || in_files "Dockerfile" files in
  let csharp :=
    any_file (λ f, Py.endswith f ".cs" || Py.endswith f ".csproj") files in
  let react :=
    any_file (λ f, Py.contains f "react") files
    || any_file (λ f, Py.endswith f ".jsx" || Py.endswith f ".tsx") files in
  let server_entrypoint :=
    existsb (λ n, in_files n files)
      ["server.js"; "app.js"; "index.js"; "server.py"; "app.py"; "main.py"] in
  [ (bool_decide (file_count ≤ 2)%nat, 2);
    (static && index_html && negb package_manifest, 0);
    (static && any_html && negb package_manifest, 0);
    (descriptor && readme && package_manifest, 1);
    (csharp || dockerfile, 2);
    (package_manifest && negb server_entrypoint && negb react, 2);
    (true, 1) ].

(** First match wins. *)
Fixpoint first_match (rules : list (bool * Z)) : option Z :=
  match rules with
  | [] => None
  | (cond, t) :: rest => if cond then Some t else first_match rest
  end.

Module Samples.

Definition cfg : Config :=
  {| GITHUB_USERNAME := "Mathew-Harvey"; GITHUB_TOKEN := "";
     RENDER_API_KEY := "rnd_key"; RENDER_OWNER_ID := "usr-1";
     WORKSPACE := "/ws"; SKIP_EXISTING := true; DRY_RUN := false |}.

Definition repo (n : string) (lang : option string) : Repo :=
  {| repo_name := n;
     repo_html_url := "https://github.com/Mathew-Harvey/" +:+ n;
     repo_clone_url := "https://github.com/Mathew-Harvey/" +:+ n +:+ ".git";
     repo_description := None; repo_language := lang; repo_fork := false;
     repo_archived := false; repo_size := 12; repo_homepage := None |}.

(** A world in which every request raises and the agent fails. *)
Definition offline : world := λ X _ e,
  match e in event T return T with
  | RequestsGet _ _ => Raised "connection refused"
  | RequestsPost _ _ => Raised "connection refused"
  | Sleep _ => tt
  | UtcNow => "2024-01-01T00:00:00"
  | CloneRepo _ _ => Raised "clone failed"
  | QuickFixStaticRepo _ _ => tt
  | RunClaudeCode _ _ _ => (false, "CLI_NOT_FOUND")
  | PushChanges _ _ => tt
  | ReadRenderYaml _ => None
  end.

(** A world that answers every GET with [on_get], every POST with
    [on_post], in which git works and the agent reports [agent_ok]. *)
Definition fixed (on_get on_post : exn_or Response) (agent_ok : bool)
  : world := λ X _ e,
  match e in event T return T with
  | RequestsGet _ _ => on_get
  | RequestsPost _ _ => on_post
  | Sleep _ => tt
  | UtcNow => "2024-01-01T00:00:00"
  | CloneRepo _ _ => Returned tt
  | QuickFixStaticRepo _ _ => tt
  | RunClaudeCode _ _ _ => (agent_ok, "")
  | PushChanges _ _ => tt
  | ReadRenderYaml _ => None
  end.

Definition blob (p : string) : TreeItem := {| path := p; type := "blob" |}.

Definition tree_response (paths : list string) : Response :=
  {| status_code := 200; text := ""; json_tree := Some (blob <$> paths) |}.

Definition old_project (n st url : string) : Project :=
  set_deploy_url url (set_status st (new_project n "https://github.com/x" "" "" false)).

Definition ledger_with (p : Project) : Manifest := store_project p empty_manifest.

End Samples.



(** Whether a performed call is a probe that found a live page. *)
Definition call_live (c : call) : bool :=
  match c with
  | Call (RequestsGet _ _) (Returned resp) => page_is_live resp
  | _ => false
  end.

Module LivenessSamples.

(** [s * n] *)
Fixpoint times (s : string) (n : nat) : string :=
  match n with
  | O => ""
  | S n' => s +:+ times s n'
  end.


(** A page of 3000 characters with no error wording. *)
Definition real_page : Response :=
  {| status_code := 200; text := times "<p>hello world</p>" 167;
     json_tree := None |}.

(** Only [url] answers, with [page]; every other request raises. *)
Definition only (url : string) (page : Response) : world := λ X hist e,
  match e in event T return T → T with
  | RequestsGet u _ => λ dflt, if String.eqb u url then Returned page else dflt
  | _ => λ dflt, dflt
  end (Samples.offline X hist e).

End LivenessSamples.

Module ClassifierSamples.

(** The file tree is served; everything else is as in [Samples.fixed]. *)
Definition serving (paths : list string) : world :=
  Samples.fixed (Returned (Samples.tree_response paths))
                (Raised "connection refused") false.

Definition python_repo : Repo := Samples.repo "tool" (Some "Python").
Definition python_tree : list string := ["main.py"; "utils.py"; "README.md"].

Definition tiny_site : Repo := Samples.repo "site" (Some "HTML").
Definition tiny_tree : list string := ["index.html"; "style.css"].

End ClassifierSamples.

(** Whether the provider answered a POST with status 429. *)
Definition is_429 (answer : exn_or Response) : bool :=
  match answer with
  | Returned resp => status_code resp =? 429
  | Raised _ => false
  end.

(** One call of [deploy_to_render] only reads the descriptor, posts and
    sleeps. *)
Definition deploy_call (c : call) : Prop :=
  match call_event c with
  | ReadRenderYaml _ | RequestsPost _ _ | Sleep _ => True
  | _ => False
  end.

(** What the loop guarantees of each call it makes: an agent call is a
    fix-prompt call, with 15 turns, on a non-empty error text that is not a
    rate-limit error. *)
Definition healing_call_ok (project : Project) (project_dir : string)
    (c : call) : Prop :=
  is_agent_call c = true →
  ∃ error_text answer,
    c = Call (RunClaudeCode project_dir (FixPrompt error_text (name project)) 15)
             answer
    ∧ error_text ≠ ""
    ∧ is_rate_limit_error error_text = false.

Module DeploySamples.

Definition project : Project :=
  new_project "shop" "https://github.com/Mathew-Harvey/shop" "" "" false.

Definition answer (code : Z) (body : string) : exn_or Response :=
  Returned {| status_code := code; text := body; json_tree := None |}.

(** The provider answers every POST with [code] and [body]; the agent
    reports success. *)
Definition provider (code : Z) (body : string) : world :=
  Samples.fixed (Raised "connection refused") (answer code body) true.

End DeploySamples.

(** The invariant of a ledger record. *)
Definition record_invariant (p : Project) : Prop :=
  (status p = DEPLOYED ∨ status p = ALREADY_LIVE → deploy_url p ≠ "")
  ∧ (status p = SKIPPED → skip_reason p ≠ "")
  ∧ (status p = FAILED → error p ≠ "").

Definition ledger_invariant (manifest : Manifest) : Prop :=
  map_Forall (λ _ p, record_invariant p) (projects manifest).

(** The ledgers the program itself produces, following [main]: the default
    of [load_manifest]; the reset pass; the store of a processed repository;
    the GIF path written into an entry after the capture phase; and the
    updates of [portfolio_url] and [last_run]. *)
Inductive produced : Manifest → Prop :=
| produced_empty : produced empty_manifest
| produced_reset manifest :
    produced manifest → produced (reset_manifest_for_retry manifest)
| produced_store cfg w hist repo manifest :
    produced manifest →
    produced (store_project (run w hist (process_repo cfg repo manifest)).1
                manifest)
| produced_gif n manifest :
    produced manifest →
    produced {| projects := alter (set_gif_url ("gifs/" +:+ n +:+ ".gif")) n
                              (projects manifest);
                portfolio_url := portfolio_url manifest;
                last_run := last_run manifest |}
| produced_meta url now manifest :
    produced manifest →
    produced {| projects := projects manifest; portfolio_url := url;
                last_run := now |}.

(** The file-tree fetch raises: on the request for the [main] branch, or,
    after a 404 for it, on the request for [master]. *)
Definition fetch_raises (cfg : Config) (w : world) (hist : list call)
    (name : string) : Prop :=
  let get_main := RequestsGet (tree_url cfg name "main") 10 in
  let get_master := RequestsGet (tree_url cfg name "master") 10 in
  (∃ msg, w _ hist get_main = Raised msg)
  ∨ (∃ resp msg,
       w _ hist get_main = Returned resp ∧ status_code resp = 404
       ∧ w _ (hist ++ [Call get_main (Returned resp)]) get_master = Raised msg).

(** A call of the clone, completion, push or deploy phase. *)
Definition later_phase_call (c : call) : bool :=
  match call_event c with
  | CloneRepo _ _ | QuickFixStaticRepo _ _ | RunClaudeCode _ _ _
  | PushChanges _ _ | RequestsPost _ _ | ReadRenderYaml _ | Sleep _ => true
  | RequestsGet _ _ | UtcNow => false
  end.

(** The record [process_repo] builds before any check. *)
Definition fresh_project (repo : Repo) : Project :=
  new_project (repo_name repo) (repo_html_url repo)
    (or_empty (repo_description repo)) (or_empty (repo_language repo))
    (repo_fork repo).

Module OrchestratorSamples.

Definition forked : Repo :=
  {| repo_name := "shop";
     repo_html_url := "https://github.com/Mathew-Harvey/shop";
     repo_clone_url := "https://github.com/Mathew-Harvey/shop.git";
     repo_description := None; repo_language := None; repo_fork := true;
     repo_archived := false; repo_size := 40; repo_homepage := None |}.

Definition deployed_shop : Project :=
  Samples.old_project "shop" DEPLOYED "https://mh-shop.onrender.com".

Definition ledger : Manifest := Samples.ledger_with deployed_shop.

(** A repository of five files whose tree is served, which clones, and
    which the provider accepts with status 201; no candidate URL is live. *)
Definition shop : Repo := Samples.repo "shop" (Some "JavaScript").

Definition shop_deploys : world := λ X hist e,
  match e in event T return T → T with
  | RequestsGet _ t => λ dflt,
      if t =? 10
      then Returned (Samples.tree_response
                       ["index.html"; "app.js"; "package.json"; "style.css";
                        "README.md"])
      else Raised "connection refused"
  | RequestsPost _ _ => λ _,
      Returned {| status_code := 201; text := ""; json_tree := None |}
  | _ => λ dflt, dflt
  end (Samples.fixed (Raised "connection refused") (Raised "connection refused")
         true X hist e).

End OrchestratorSamples.

(* ===================================================================== *)
(** ** Further parts of the pipeline *)
(* ===================================================================== *)

(** Counting the calls of a trace. *)
Definition is_post_call (c : call) : bool :=
  match call_event c with RequestsPost _ _ => true | _ => false end.
Definition is_push_call (c : call) : bool :=
  match call_event c with PushChanges _ _ => true | _ => false end.
Definition is_get_call (c : call) : bool :=
  match call_event c with RequestsGet _ _ => true | _ => false end.
Definition count_calls (P : call → bool) (tr : list call) : nat :=
  length (filter (λ c, P c = true) tr).

(** The turn budget an agent call was given, if the call is one. *)
Definition agent_turns (c : call) : option Z :=
  match call_event c with RunClaudeCode _ _ t => Some t | _ => None end.

(** [save_manifest]: stamps [last_run] and rewrites the manifest file; the
    file itself is outside the model. *)
Definition save_manifest (manifest : Manifest) : prog Manifest :=
  now <- trigger UtcNow ;;
  Ret {| projects := projects manifest;
         portfolio_url := portfolio_url manifest;
         last_run := now |}.

(** The counters of [main]. *)
Record Stats := mkStats {
  processed : nat;
  deployed : nat;
  already_live : nat;
  skipped : nat;
  failed : nat;
}.

Definition no_stats : Stats := mkStats 0 0 0 0 0.

(** The [if]/[elif] chain on [project.status] and [processed += 1]. *)
Definition count_project (project : Project) (st : Stats) : Stats :=
  let st' :=
    if String.eqb (status project) DEPLOYED then
      mkStats (processed st) (S (deployed st)) (already_live st) (skipped st) (failed st)
    else if String.eqb (status project) ALREADY_LIVE then
      mkStats (processed st) (deployed st) (S (already_live st)) (skipped st) (failed st)
    else if String.eqb (status project) SKIPPED then
      mkStats (processed st) (deployed st) (already_live st) (S (skipped st)) (failed st)
    else if String.eqb (status project) FAILED then
      mkStats (processed st) (deployed st) (already_live st) (skipped st) (S (failed st))
    else st in
  mkStats (S (processed st')) (deployed st') (already_live st') (skipped st')
          (failed st').

(** The [for i, repo in enumerate(repos, 1)] loop of [main]. *)
Fixpoint process_all (cfg : Config) (repos : list Repo) (manifest : Manifest)
    (st : Stats) : prog (Manifest * Stats) :=
  match repos with
  | [] => Ret (manifest, st)
  | repo :: rest =>
      project <- process_repo cfg repo manifest ;;
      let manifest := store_project project manifest in
      manifest <- save_manifest manifest ;;
      process_all cfg rest manifest (count_project project st)
  end.

(** [main] from the loaded manifest to the end of the loop over the
    listing; [repos] is what [fetch_all_repos] returned. *)
Definition main_sweep (cfg : Config) (repos : list Repo) (manifest : Manifest)
  : prog (Manifest * Stats) :=
  let manifest := reset_manifest_for_retry manifest in
  manifest <- save_manifest manifest ;;
  process_all cfg repos manifest no_stats.

(** Every ledger key is the name of its record. *)
Definition keyed_by_name (manifest : Manifest) : Prop :=
  map_Forall (λ k p, name p = k) (projects manifest).

(** The statuses [process_repo] gives a record it builds itself. *)
Definition outcome_statuses : list string :=
  [SKIPPED; ALREADY_LIVE; COMPLETED; FAILED; DEPLOYED].

(** What holds of a record that [process_repo] builds itself. *)
Definition built_for (cfg : Config) (repo : Repo) (r : Project) : Prop :=
  name r = repo_name repo
  ∧ github_url r = repo_html_url repo
  ∧ is_fork r = repo_fork repo
  ∧ status r ∈ outcome_statuses
  ∧ (status r = DEPLOYED →
     deploy_url r = "https://mh-" +:+ Py.take 30 (repo_name repo) +:+ ".onrender.com")
  ∧ (DRY_RUN cfg = true → status r ≠ DEPLOYED ∧ status r ≠ FAILED).

(** The project a prompt is about. *)
Definition prompt_project (p : Prompt) : string :=
  match p with
  | Tier1Prompt n | Tier2Prompt n | FixPrompt _ n => n
  end.

(** An agent call that runs in [dir], about project [n], with one of the two
    turn budgets of the source. *)
Definition agent_call_within (dir n : string) (c : call) : Prop :=
  match call_event c with
  | RunClaudeCode d p t => d = dir ∧ prompt_project p = n ∧ (t = 15 ∨ t = 30)
  | _ => True
  end.

(** Neither a push nor a POST. *)
Definition ships_nothing (c : call) : Prop :=
  is_push_call c = false ∧ is_post_call c = false.

Module MoreSamples.

Definition described : Repo :=
  {| repo_name := "shop";
     repo_html_url := "https://github.com/Mathew-Harvey/shop";
     repo_clone_url := "https://github.com/Mathew-Harvey/shop.git";
     repo_description := Some "Demo at https://shop.example.com/app (beta)";
     repo_language := Some "JavaScript"; repo_fork := false;
     repo_archived := false; repo_size := 40;
     repo_homepage := Some "https://shop.example.com" |}.

End MoreSamples.

(** The repositories counted as deployed, already live, skipped or failed. *)
Definition counted (st : Stats) : nat :=
  (deployed st + already_live st + skipped st + failed st)%nat.

(* ===================================================================== *)
(** ** Extracting JSON from the agent's output *)
(* ===================================================================== *)

(** [before, after] around the first occurrence of [sub] in [s]. *)
Fixpoint split_on (sub s : string) : option (string * string) :=
  if Py.startswith s sub then Some ("", drop_str (String.length sub) s)
  else
    match s with
    | EmptyString => None
    | String c s' =>
        match split_on sub s' with
        | Some (before, after) => Some (String c before, after)
        | None => None
        end
    end.

(** The three backquotes of a fence. *)
Definition FENCE : string := "```".

(** Strategy 1: [json_block.group(1).strip()] for the pattern
    [FENCE (json)? \s* \n? (.*?) \n? FENCE] with [.] matching newlines. The
    match starts at the first fence of the output and ends at the next fence
    after it (and after the word [json] when it follows the opening fence);
    the whitespace the pattern skips on both sides of the group is
    whitespace that [strip] removes anyway. *)
Definition fenced_block (output : string) : option string :=
  match split_on FENCE output with
  | None => None
  | Some (_, rest) =>
      let rest := if Py.startswith rest "json" then drop_str 4 rest else rest in
      match split_on FENCE rest with
      | None => None
      | Some (body, _) => Some (Py.strip body)
      end
  end.

Definition is_open_brace (c : ascii) : bool := (nat_of_ascii c =? 123)%nat.
Definition is_close_brace (c : ascii) : bool := (nat_of_ascii c =? 125)%nat.

(** [output[start:i+1]] while it grows: nothing when [start] is [-1]. *)
Definition grow (ch : ascii) (cur : option string) : option string :=
  match cur with
  | Some text => Some (text +:+ String ch "")
  | None => None
  end.

(** Strategy 2, the scan: [depth] and the text since [start], when [start]
    is set. *)
Fixpoint brace_candidates_from (depth : Z) (cur : option string) (s : string)
  : list string :=
  match s with
  | EmptyString => []
  | String ch s' =>
      if is_open_brace ch then
        let cur := if depth =? 0 then Some EmptyString else cur in
        brace_candidates_from (depth + 1) (grow ch cur) s'
      else if is_close_brace ch then
        let depth := depth - 1 in
        match grow ch cur with
        | Some candidate =>
            if depth =? 0 then candidate :: brace_candidates_from depth None s'
            else brace_candidates_from depth (Some candidate) s'
        | None => brace_candidates_from depth None s'
        end
      else brace_candidates_from depth (grow ch cur) s'
  end.

Definition brace_candidates (output : string) : list string :=
  brace_candidates_from 0 None output.

(** [sorted(candidates, key=len, reverse=True)]: longest first, candidates
    of one length in their order of appearance. *)
Fixpoint insert_by_len (c : string) (sorted : list string) : list string :=
  match sorted with
  | [] => [c]
  | d :: rest =>
      if (String.length d <=? String.length c)%nat then c :: d :: rest
      else d :: insert_by_len c rest
  end.
Definition longest_first (candidates : list string) : list string :=
  foldr insert_by_len [] candidates.

Section ExtractJson.

(** [json.loads]: [None] when it raises [JSONDecodeError]. *)
Context {J : Type} (loads : string → option J).

(** The loop that returns the first candidate that decodes. *)
Fixpoint first_loads (candidates : list string) : option J :=
  match candidates with
  | [] => None
  | c :: rest =>
      match loads c with
      | Some j => Some j
      | None => first_loads rest
      end
  end.

Definition extract_json_from_output (output : string) : option J :=
  if negb (Py.truthy output) then None
  else
    let from_braces := first_loads (longest_first (brace_candidates output)) in
    match fenced_block output with
    | Some block =>
        match loads block with
        | Some j => Some j
        | None => from_braces
        end
    | None => from_braces
    end.

End ExtractJson.

Module JsonSamples.

(** A decoder that accepts only the two texts below. *)
Definition loads (s : string) : option nat :=
  if String.eqb s "{}" then Some 0%nat
  else if String.eqb s "{1}" then Some 1%nat
  else None.

End JsonSamples.

(** A text without braces. *)
Fixpoint brace_free (s : string) : bool :=
  match s with
  | EmptyString => true
  | String c s' => negb (is_open_brace c) && negb (is_close_brace c) && brace_free s'
  end.

(* ===================================================================== *)
(** ** Tier 0: the files of [quick_fix_static_repo] *)
(* ===================================================================== *)

(** What [quick_fix_static_repo] writes into [render.yaml]. *)
Definition static_render_yaml (project_name : string) : string :=
  "services:
  - type: web
    name: " +:+ project_name +:+ "
    runtime: static
    staticPublishPath: ./
".

(** What it writes into [README.md]. *)
Definition stub_readme (project_name : string) : string :=
  "# " +:+ project_name +:+ "

A web project by Mathew Harvey.
".

(** The two [if not ... .exists(): write_text(...)] steps on the files of
    the working copy, keyed by their path below [project_dir]; the commit
    that follows is outside the model. *)
Definition quick_fix_files (project_name : string) (files : gmap string string)
  : gmap string string :=
  let files :=
    match files !! "render.yaml" with
    | Some _ => files
    | None => <["render.yaml" := static_render_yaml project_name]> files
    end in
  match files !! "README.md" with
  | Some _ => files
  | None => <["README.md" := stub_readme project_name]> files
  end.

(* ===================================================================== *)
(** ** generate_portfolio.py: the projects that are listed *)
(* ===================================================================== *)

(** One element of [live]. *)
Record LiveProject := mkLiveProject {
  lp_name : string;
  lp_deploy_url : string;
  lp_github_url : string;
  lp_description : string;
  lp_category : string;
  lp_tech_stack : list string;
  lp_status : string;
  lp_gif_url : string;
}.

(** The order of [sorted(projects.items())]: by key, the keys of a
    dictionary being distinct. *)
Definition item_le (a b : string * Project) : Prop := String.le a.1 b.1.

#[global] Instance item_le_dec : RelDecision item_le :=
  λ a b, String.le_dec a.1 b.1.

Definition sorted_items (entries : gmap string Project)
  : list (string * Project) :=
  merge_sort item_le (map_to_list entries).

(** The body of the loop over the sorted items; [gif_exists n] tells whether
    [gifs/<n>.gif] exists. *)
Definition live_project (gif_exists : string → bool) (item : string * Project)
  : option LiveProject :=
  let n := item.1 in
  let data := item.2 in
  if bool_decide (status data ∈ ["already-live"; "deployed"])
     && Py.truthy (deploy_url data)
  then Some {| lp_name := n;
               lp_deploy_url := deploy_url data;
               lp_github_url := github_url data;
               lp_description := Py.or_ (description data) n;
               lp_category := Py.or_ (category data) "other";
               lp_tech_stack := tech_stack data;
               lp_status := status data;
               lp_gif_url := if gif_exists n then "gifs/" +:+ n +:+ ".gif" else "" |}
  else None.

Definition live_projects (gif_exists : string → bool) (manifest : Manifest)
  : list LiveProject :=
  omap (live_project gif_exists) (sorted_items (projects manifest)).

(** [total_live] and [already_live] of the statistics. *)
Definition total_live (live : list LiveProject) : nat := length live.
Definition already_live_total (live : list LiveProject) : nat :=
  length (filter (λ p, lp_status p = "already-live") live).

(* ===================================================================== *)
(** ** Properties *)
(* ===================================================================== *)

(** *** The reset pass *)

Lemma reset_entry_resets (data : Project) :
  status data ∈ reset_statuses →
  reset_entry data = set_skip_reason "" (set_error "" (set_status PENDING data)).
Proof. intros H. unfold reset_entry. by rewrite bool_decide_eq_true_2. Qed.

Lemma reset_entry_sticky (data : Project) :
  status data ∈ sticky_statuses → reset_entry data = data.
Proof.
  intros H. unfold reset_entry.
  rewrite bool_decide_eq_false_2; [done|].
  intros Hr. unfold sticky_statuses, reset_statuses in *.
  apply list_elem_of_In in H, Hr. cbv in H, Hr.
  intuition congruence.
Qed.



(** *** Running programs *)

Create HintDb trace.

Section Running.

Context (w : world).

Lemma run_bind {A B : Type} (p : prog A) (f : A → prog B) :
  ∀ hist,
    run w hist (bind p f)
    = let r1 := run w hist p in
      let r2 := run w (hist ++ r1.2) (f r1.1) in
      (r2.1, r1.2 ++ r2.2).
Proof.
  induction p as [a|X e k IH]; intros hist; cbn.
  - rewrite app_nil_r. by destruct (run w hist (f a)).
  - rewrite IH. cbn. by rewrite <-app_assoc.
Qed.

Lemma run_trigger {X : Type} (hist : list call) (e : event X) :
  run w hist (trigger e) = (w X hist e, [Call e (w X hist e)]).
Proof. reflexivity. Qed.

(** A property of the result of [bind p f] follows from the same property
    of [f] run after [p]. *)
Lemma result_bind {A B : Type} (Q : B → Prop) (p : prog A) (f : A → prog B)
    (hist : list call) :
  Q (run w (hist ++ (run w hist p).2) (f (run w hist p).1)).1 →
  Q (run w hist (bind p f)).1.
Proof. by rewrite run_bind. Qed.

(** A property of every call of a trace, through [bind], [trigger], [Ret]. *)
Lemma trace_bind {A B : Type} (P : call → Prop) (p : prog A) (f : A → prog B)
    (hist : list call) :
  Forall P (run w hist p).2 →
  Forall P (run w (hist ++ (run w hist p).2) (f (run w hist p).1)).2 →
  Forall P (run w hist (bind p f)).2.
Proof. intros H1 H2. rewrite run_bind. cbn. by apply Forall_app. Qed.

Lemma trace_trigger {X : Type} (P : call → Prop) (e : event X)
    (hist : list call) :
  (∀ x, P (Call e x)) → Forall P (run w hist (trigger e)).2.
Proof. intros H. cbn. by repeat constructor. Qed.

Lemma trace_ret {A : Type} (P : call → Prop) (a : A) (hist : list call) :
  Forall P (run w hist (Ret a)).2.
Proof. constructor. Qed.

End Running.

#[global] Hint Resolve trace_ret : trace.

(** *** The liveness probe *)





Lemma dedupe_from_elem_of (urls : list string) :
  ∀ (seen : gset string) (x : string),
    x ∈ dedupe_from seen urls ↔ x ∈ urls ∧ x ∉ seen.
Proof.
  induction urls as [|u rest IH]; intros seen x; cbn.
  - split; [by intros ?%elem_of_nil | by intros [?%elem_of_nil _]].
  - case_bool_decide as Hu.
    + rewrite IH, elem_of_cons. split; [tauto|].
      intros [[->|?] ?]; [done|tauto].
    + rewrite !elem_of_cons, IH, not_elem_of_union, not_elem_of_singleton.
      split.
      * intros [->|(? & ? & ?)]; tauto.
      * intros [[->|?] ?]; [tauto|].
        destruct (decide (x = u)); tauto.
Qed.

Lemma dedupe_from_NoDup (urls : list string) :
  ∀ seen : gset string, NoDup (dedupe_from seen urls).
Proof.
  induction urls as [|u rest IH]; intros seen; cbn.
  - constructor.
  - case_bool_decide as Hu; [apply IH|].
    constructor; [|apply IH].
    rewrite dedupe_from_elem_of. intros [_ Hn]. apply Hn.
    apply elem_of_union_l. by apply elem_of_singleton.
Qed.

(** Dropping duplicates keeps the first occurrence of each URL: the result
    starts with the head of the input, followed by the rest deduplicated
    with the head filtered out. *)
Lemma dedupe_from_union (urls : list string) :
  ∀ seen1 seen2 : gset string,
    dedupe_from (seen1 ∪ seen2) urls
    = filter (λ x, x ∉ seen1) (dedupe_from seen2 urls).
Proof.
  induction urls as [|u rest IH]; intros seen1 seen2; cbn; [done|].
  destruct (decide (u ∈ seen2)) as [H2|H2].
  { rewrite (bool_decide_eq_true_2 (u ∈ seen1 ∪ seen2))
      by (by apply elem_of_union_r).
    rewrite (bool_decide_eq_true_2 (u ∈ seen2)) by done. apply IH. }
  rewrite (bool_decide_eq_false_2 (u ∈ seen2)) by done.
  destruct (decide (u ∈ seen1)) as [H1|H1].
  - rewrite bool_decide_eq_true_2 by (by apply elem_of_union_l).
    rewrite filter_cons_False by (intros ?; done).
    rewrite <-IH. f_equal. apply set_eq. intros x.
    rewrite !elem_of_union, elem_of_singleton.
    split; [tauto|]. intros [?|[->|?]]; tauto.
  - rewrite bool_decide_eq_false_2 by (rewrite elem_of_union; tauto).
    rewrite filter_cons_True by done.
    rewrite <-IH. do 2 f_equal. apply set_eq. intros x.
    rewrite !elem_of_union, elem_of_singleton. tauto.
Qed.

Lemma dedupe_cons (u : string) (rest : list string) :
  dedupe (u :: rest) = u :: filter (λ x, x ≠ u) (dedupe rest).
Proof.
  unfold dedupe. cbn. rewrite bool_decide_eq_false_2 by apply not_elem_of_empty.
  f_equal. rewrite dedupe_from_union.
  apply list_filter_iff. intros x. by rewrite elem_of_singleton.
Qed.

Lemma run_check_url_live (w : world) (hist : list call) (url : string) :
  run w hist (check_url_live url)
  = let c := Call (RequestsGet url 12) (w _ hist (RequestsGet url 12)) in
    (call_live c, [c]).
Proof.
  unfold check_url_live. rewrite run_bind, run_trigger. cbn.
  by destruct (w _ hist (RequestsGet url 12)).
Qed.

Lemma probe_candidates_spec (w : world) (candidates : list string) :
  ∀ hist,
    let r := run w hist (probe_candidates candidates) in
    (r.1 = (false, "") ∧ got_urls r.2 = candidates
     ∧ Forall (λ c, call_live c = false) r.2)
    ∨ (∃ before u after tr c,
         candidates = before ++ u :: after ∧ r.1 = (true, u)
         ∧ r.2 = tr ++ [c] ∧ got_urls tr = before ∧ get_url c = Some u
         ∧ Forall (λ c, call_live c = false) tr ∧ call_live c = true).
Proof.
  induction candidates as [|url rest IH]; intros hist; cbn zeta.
  - left. cbn. auto.
  - cbn [probe_candidates]. rewrite run_bind, run_check_url_live. cbn zeta.
    set (c := Call (RequestsGet url 12) (w _ hist (RequestsGet url 12))).
    cbn [fst snd]. destruct (call_live c) eqn:Hc.
    + right. exists [], url, rest, [], c. cbn. auto 10.
    + destruct (IH (hist ++ [c])) as [(Hr & Hg & Hf)|(b & u & a & tr & c' & H)].
      * left. cbn [fst snd]. split; [done|]. split.
        -- change ([c] ++ ?t) with (c :: t). unfold got_urls in *. cbn.
           by rewrite Hg.
        -- by constructor.
      * destruct H as (Hl & Hr & Ht & Hg & Hu & Hf & Hlive).
        right. exists (url :: b), u, a, (c :: tr), c'. cbn [fst snd].
        rewrite Hr, Ht, Hl. repeat split; try done.
        -- unfold got_urls in *. cbn. by rewrite Hg.
        -- by constructor.
Qed.

(** C8. The candidates are pairwise distinct and are probed in their order.
    Either no probe finds a live page, every candidate is requested and the
    result is [(False, "")]; or the candidates split as [before ++ u :: after],
    the requests made are exactly those of [before] (none live) followed by
    the one of [u] (live), the result is [(True, u)], and no candidate of
    [after] is requested. *)
Theorem find_existing_deployment_short_circuits (cfg : Config) (w : world)
    (hist : list call) (repo : Repo) :
  let candidates := get_candidate_urls cfg repo in
  let r := run w hist (find_existing_deployment cfg repo) in
  NoDup candidates
  ∧ ((r.1 = (false, "") ∧ got_urls r.2 = candidates
      ∧ Forall (λ c, call_live c = false) r.2)
     ∨ (∃ before u after tr c,
          candidates = before ++ u :: after ∧ r.1 = (true, u)
          ∧ r.2 = tr ++ [c] ∧ got_urls tr = before ∧ get_url c = Some u
          ∧ Forall (λ c, call_live c = false) tr ∧ call_live c = true
          ∧ ∀ v, v ∈ after → v ∉ got_urls r.2)).
Proof.
  intros candidates r. subst r. unfold find_existing_deployment. fold candidates.
  assert (NoDup candidates) as Hnd by apply dedupe_from_NoDup.
  split; [done|].
  destruct (probe_candidates_spec w candidates hist)
    as [H|(b & u & a & tr & c & Hl & Hr & Ht & Hg & Hu & Hf & Hlive)];
    [by left|].
  right. exists b, u, a, tr, c.
  repeat split; try done.
  intros v Hv. rewrite Ht. unfold got_urls in *.
  rewrite omap_app, Hg. cbn. rewrite Hu. cbn.
  rewrite Hl in Hnd. apply NoDup_app in Hnd as (_ & Hdisj & Hnd').
  apply NoDup_cons in Hnd' as [Hu' _].
  rewrite elem_of_app, list_elem_of_singleton.
  intros [Hb| ->]; [|done].
  apply (Hdisj v Hb). by right.
Qed.

Lemma find_existing_deployment_short_circuits_witness :
  let w := LivenessSamples.only "https://mathew-harvey.github.io/Foo/"
             LivenessSamples.real_page in
  let r := run w [] (find_existing_deployment Samples.cfg (Samples.repo "Foo" None)) in
  r.1 = (true, "https://mathew-harvey.github.io/Foo/")
  ∧ got_urls r.2 = ["https://mathew-harvey.github.io/Foo/"]
  ∧ NoDup (get_candidate_urls Samples.cfg (Samples.repo "Foo" None)).
Proof.
  split; [by vm_compute|]. split; [by vm_compute|].
  exact (proj1 (find_existing_deployment_short_circuits Samples.cfg
    (LivenessSamples.only "https://mathew-harvey.github.io/Foo/"
       LivenessSamples.real_page) [] (Samples.repo "Foo" None))).
Defined.

(** *** The classifier *)

Lemma run_classify_repo_from_api (cfg : Config) (w : world) (hist : list call)
    (repo : Repo) :
  (run w hist (classify_repo_from_api cfg repo)).1
  = classify_files (Py.lower (or_empty (repo_language repo)))
      (run w hist (fetch_files cfg (repo_name repo))).1.
Proof. unfold classify_repo_from_api. by rewrite run_bind. Qed.

Lemma determine_tier_first_match (files : gset string) (dt : string) :
  first_match (spec_tier_rules files dt)
  = Some (determine_tier (derive_signals files) dt).
Proof.
  unfold spec_tier_rules, determine_tier, derive_signals.
  cbn [file_count has_index_html has_package_json has_html_files
       has_render_yaml has_readme has_cs_files has_dockerfile has_server
       has_react first_match].
  destruct (Z.leb_spec (Z.of_nat (size files)) 2).
  { by rewrite bool_decide_eq_true_2 by lia. }
  rewrite bool_decide_eq_false_2 by lia.
  destruct (String.eqb_spec dt "static").
  - rewrite bool_decide_eq_true_2 by done.
    by repeat match goal with |- context [if ?b then _ else _] => destruct b; cbn end.
  - rewrite bool_decide_eq_false_2 by done. cbn [andb].
    by repeat match goal with |- context [if ?b then _ else _] => destruct b; cbn end.
Qed.

(** C2. For every answer of the tree request, the tier the classifier
    returns is the tier of the first rule, in the order of the specification,
    whose condition holds on the fetched file listing: the rules are read on
    the listing itself and on its deploy type. In particular a listing of at
    most two files gets tier 2, whatever else it holds. When the request for
    the [main] tree is answered with status 200, the listing is the set of
    the lower-cased paths of the blobs of that answer. *)
Theorem tier_precedence (cfg : Config) (w : world) (hist : list call)
    (repo : Repo) :
  let files := (run w hist (fetch_files cfg (repo_name repo))).1 in
  let cls := (run w hist (classify_repo_from_api cfg repo)).1 in
  first_match (spec_tier_rules files
                 (determine_deploy_type (derive_signals files)))
  = Some (tier cls)
  ∧ ((size files ≤ 2)%nat → tier cls = 2)
  ∧ (∀ resp tree,
       w _ hist (RequestsGet (tree_url cfg (repo_name repo) "main") 10)
       = Returned resp →
       status_code resp = 200 → json_tree resp = Some tree →
       files = list_to_set (map (λ item, Py.lower (path item))
                               (filter (λ item, type item = "blob") tree))).
Proof.
  cbn zeta. rewrite run_classify_repo_from_api.
  unfold classify_files. cbn [tier].
  split; [apply determine_tier_first_match|]. split.
  - intros Hc. unfold determine_tier, derive_signals at 1. cbn [file_count].
    by destruct (Z.leb_spec (Z.of_nat (size
      (run w hist (fetch_files cfg (repo_name repo))).1)) 2); [|lia].
  - intros resp tree Hresp Hstatus Htree.
    unfold fetch_files. rewrite run_bind, run_trigger. cbn [fst snd].
    rewrite Hresp, Hstatus. cbn [Z.eqb Pos.eqb run fst].
    unfold files_of_response. by rewrite Hstatus, Htree.
Qed.

Lemma tier_precedence_witness :
  let w := ClassifierSamples.serving ClassifierSamples.tiny_tree in
  let files := (run w [] (fetch_files Samples.cfg "site")).1 in
  let cls := (run w [] (classify_repo_from_api Samples.cfg
                          ClassifierSamples.tiny_site)).1 in
  files = {["index.html"; "style.css"]}
  ∧ in_files "package.json" files = false
  ∧ determine_deploy_type (derive_signals files) = "static"
  ∧ tier cls = 2.
Proof.
  split; [by vm_compute|]. split; [by vm_compute|]. split; [by vm_compute|].
  apply (proj1 (proj2 (tier_precedence Samples.cfg
           (ClassifierSamples.serving ClassifierSamples.tiny_tree) []
           ClassifierSamples.tiny_site))).
  by vm_compute.
Defined.

Lemma upper_char_not_lower (c : ascii) : Py.is_lower (Py.upper_char c) = false.
Proof. by destruct c as [[] [] [] [] [] [] [] []]. Qed.

Lemma capitalize_not_lower_initial (language : string) (c : ascii) (rest : string) :
  Py.is_lower c = true → Py.capitalize language ≠ String c rest.
Proof.
  intros Hc. destruct language as [|a r]; cbn; [done|].
  intros [= Ha _]. pose proof (upper_char_not_lower a). congruence.
Qed.

Lemma evidence_tags_lowered (s : Signals) (t : string) :
  t ∈ map Py.lower (evidence_tags s) →
  t ∈ ["html"; "css"; "javascript"; "react"; "python"; "c#"].
Proof.
  unfold evidence_tags.
  rewrite !map_app, !elem_of_app.
  destruct (has_html_files s), (has_css_files s), (has_js_files s),
    (has_react s), (has_py_files s), (has_cs_files s); cbn;
    rewrite ?elem_of_cons, ?elem_of_nil; intuition (subst; auto 10).
Qed.

(** Whatever the files are, a declared language is put in front of the
    evidence tags: its capitalised form never equals a lower-cased tag. *)
Lemma declared_language_always_inserted (language : string) (s : Signals) :
  language ≠ "" →
  build_tech_stack language s = Py.capitalize language :: evidence_tags s.
Proof.
  intros Hne. unfold build_tech_stack.
  replace (Py.truthy language) with true by (by destruct language).
  rewrite bool_decide_eq_false_2; [done|].
  intros Hin%evidence_tags_lowered.
  rewrite !elem_of_cons, elem_of_nil in Hin.
  destruct Hin as [H|[H|[H|[H|[H|[H|[]]]]]]];
    by eapply capitalize_not_lower_initial in H.
Qed.

(** C9, evaluated: for a repository whose declared language is Python and
    whose tree holds [.py] files, the classifier's tech stack lists Python
    twice: the declared language is added in front although the file evidence
    already put the same tag in the list. *)
Theorem tech_stack_repeats_declared_language :
  cls_tech_stack
    (run (ClassifierSamples.serving ClassifierSamples.python_tree) []
       (classify_repo_from_api Samples.cfg ClassifierSamples.python_repo)).1
  = ["Python"; "Python"].
Proof. by vm_compute. Qed.

(** *** The deployment client *)

Lemma payload_name_payload_of (cfg : Config) (project : Project)
    (config : option RenderService) :
  payload_name (payload_of cfg project config) = service_name_of project.
Proof.
  unfold payload_of. destruct config as [svc|]; [|done].
  by destruct (is_web_service svc).
Qed.

Lemma post_with_backoff_spec (w : world) (payload : Payload)
    (service_name : string) (n : nat) :
  ∀ (k : nat) (hist : list call),
    let r := run w hist
               (post_with_backoff payload service_name (map Z.of_nat (seq k n))) in
    ∃ limited : list (exn_or Response),
      Forall (λ a, is_429 a = true) limited
      ∧ sleeps r.2
        = map (λ i, 30 * (Z.of_nat i + 1)) (seq k (length limited))
      ∧ ((length limited = n ∧ post_answers r.2 = limited
          ∧ r.1 = (None, "Rate limit exceeded after retries"))
         ∨ ((length limited < n)%nat
            ∧ ∃ last, post_answers r.2 = limited ++ [last] ∧ is_429 last = false
              ∧ (∀ msg, last = Raised msg → r.1 = (None, msg))
              ∧ (∀ resp, last = Returned resp →
                   status_code resp = 200 ∨ status_code resp = 201 →
                   r.1 = (Some (onrender_url service_name), ""))
              ∧ (∀ resp, last = Returned resp →
                   status_code resp ≠ 200 → status_code resp ≠ 201 →
                   r.1 = (None, "Render API " +:+ Py.str (status_code resp)
                                  +:+ ": " +:+ Py.take 500 (text resp))))).
Proof.
  induction n as [|n IH]; intros k hist; cbn zeta.
  - exists []. cbn. split; [constructor|]. split; [done|]. left. auto.
  - cbn [seq map post_with_backoff]. rewrite run_bind, run_trigger. cbn zeta.
    cbn [fst snd].
    set (a := w _ hist (RequestsPost RENDER_SERVICES_URL payload)).
    set (c := Call (RequestsPost RENDER_SERVICES_URL payload) a).
    destruct a as [msg|resp] eqn:Ha.
    { exists []. cbn. split; [constructor|]. split; [done|]. right.
      split; [lia|]. exists (Raised msg). cbn.
      repeat split; try done. by intros ? [= ->]. }
    case_bool_decide as Hok.
    { exists []. cbn. split; [constructor|]. split; [done|]. right.
      split; [lia|]. exists (Returned resp). cbn.
      apply list_elem_of_In in Hok. cbn in Hok.
      assert (status_code resp ≠ 429) as H429 by (intro; lia).
      apply Z.eqb_neq in H429. repeat split; try done.
      intros ? [= <-]; lia. }
    assert (status_code resp ≠ 200 ∧ status_code resp ≠ 201) as [H200 H201].
    { split; intros E; apply Hok; rewrite E, !elem_of_cons; auto. }
    destruct (Z.eqb_spec (status_code resp) 429) as [H429|H429].
    + rewrite run_bind, run_trigger. cbn zeta. cbn [fst snd].
      set (s := Call (Sleep (30 * (Z.of_nat k + 1))) _).
      destruct (IH (S k) ((hist ++ [c]) ++ [s])) as (limited & Hall & Hsl & Hcases).
      exists (Returned resp :: limited). split.
      { constructor; [|done]. cbn. by apply Z.eqb_eq. }
      split.
      { unfold sleeps in *. cbn. by rewrite Hsl. }
      destruct Hcases as [(Hlen & Hp & Hr)|(Hlen & last & Hp & Hlast)].
      * left. cbn [length]. split; [by rewrite Hlen|].
        unfold post_answers in *. cbn. by rewrite Hp, Hr.
      * right. cbn [length]. split; [lia|]. exists last.
        unfold post_answers in *. cbn. by rewrite Hp.
    + exists []. cbn. split; [constructor|]. split; [done|]. right.
      split; [lia|]. exists (Returned resp). cbn.
      apply Z.eqb_neq in H429. repeat split; try done.
      * intros ? [= <-] [?|?]; done.
      * by intros ? [= <-] _ _.
Qed.

(** C7, as amended. With an API key and outside dry-run mode, the POSTs of
    one call of [deploy_to_render] are a run of at most three answers with
    status 429, each followed by a sleep of 30, 60, 90 seconds, and then:
    after three such answers no URL and the error "Rate limit exceeded after
    retries"; otherwise one last answer that ends the call: status 200 or 201
    gives the URL derived from the service name and an empty error, a raised
    exception gives no URL and its message, and any other status (the other
    2xx included) gives no URL and "Render API <status>: <first 500
    characters of the body>". *)
Theorem deploy_to_render_classifies (cfg : Config) (w : world)
    (hist : list call) (project : Project) (project_dir : string) :
  RENDER_API_KEY cfg ≠ "" →
  DRY_RUN cfg = false →
  let r := run w hist (deploy_to_render cfg project project_dir) in
  ∃ limited : list (exn_or Response),
    Forall (λ a, is_429 a = true) limited
    ∧ sleeps r.2 = take (length limited) [30; 60; 90]
    ∧ ((length limited = 3%nat ∧ post_answers r.2 = limited
        ∧ r.1 = (None, "Rate limit exceeded after retries"))
       ∨ ((length limited < 3)%nat
          ∧ ∃ last, post_answers r.2 = limited ++ [last] ∧ is_429 last = false
            ∧ (∀ msg, last = Raised msg → r.1 = (None, msg))
            ∧ (∀ resp, last = Returned resp →
                 status_code resp = 200 ∨ status_code resp = 201 →
                 r.1 = (Some (onrender_url (service_name_of project)), ""))
            ∧ (∀ resp, last = Returned resp →
                 status_code resp ≠ 200 → status_code resp ≠ 201 →
                 r.1 = (None, "Render API " +:+ Py.str (status_code resp)
                                +:+ ": " +:+ Py.take 500 (text resp))))).
Proof.
  intros Hkey Hdry. cbn zeta. unfold deploy_to_render.
  replace (Py.truthy (RENDER_API_KEY cfg)) with true
    by (by destruct (RENDER_API_KEY cfg)).
  cbn [negb]. unfold build_render_payload.
  rewrite run_bind, run_bind, run_trigger. cbn zeta. cbn [fst snd run].
  rewrite Hdry, payload_name_payload_of, app_nil_r.
  set (y := Call (ReadRenderYaml project_dir) _).
  set (payload := payload_of cfg project _).
  destruct (post_with_backoff_spec w payload (service_name_of project) 3 0
              (hist ++ [y])) as (limited & Hall & Hsl & Hcases).
  change (map Z.of_nat (seq 0 3)) with (range 3) in *.
  exists limited. split; [done|]. split.
  { change ([y] ++ ?t) with (y :: t).
    assert (∀ t, sleeps (y :: t) = sleeps t) as Hy by done.
    rewrite Hy, Hsl.
    destruct Hcases as [(Hlen & _)|(Hlen & _)];
      destruct limited as [|? [|? [|? [|? ?]]]]; cbn in Hlen; try lia; done. }
  change ([y] ++ ?t) with (y :: t).
  assert (∀ t, post_answers (y :: t) = post_answers t) as Hy by done.
  rewrite Hy. exact Hcases.
Qed.

Lemma deploy_to_render_classifies_witness :
  (run (DeploySamples.provider 429 "slow down") []
     (deploy_to_render Samples.cfg DeploySamples.project "/ws/repos/shop")).1
  = (None, "Rate limit exceeded after retries").
Proof.
  destruct (deploy_to_render_classifies Samples.cfg
              (DeploySamples.provider 429 "slow down") []
              DeploySamples.project "/ws/repos/shop")
    as (limited & _ & _ & [(_ & _ & Hr)|(Hlen & last & Hp & Hlast & _)]).
  - discriminate.
  - reflexivity.
  - exact Hr.
  - exfalso. vm_compute in Hp.
    destruct limited as [|? [|? [|? [|? ?]]]]; cbn in Hlen, Hp; try lia;
      simplify_eq; discriminate.
Defined.

(** C7, as stated, fails: the provider answers 204 (a 2xx status) and the
    call returns no URL and the error "Render API 204: ". *)
Lemma deploy_to_render_rejects_204 :
  ¬ (∀ (cfg : Config) (w : world) (hist : list call) (project : Project)
       (project_dir : string) (resp : Response),
       RENDER_API_KEY cfg ≠ "" → DRY_RUN cfg = false →
       let r := run w hist (deploy_to_render cfg project project_dir) in
       head (post_answers r.2) = Some (Returned resp) →
       200 ≤ status_code resp < 300 →
       r.1 = (Some (onrender_url (service_name_of project)), "")).
Proof.
  intros H.
  specialize (H Samples.cfg (DeploySamples.provider 204 "") []
                DeploySamples.project "/ws/repos/shop"
                {| status_code := 204; text := ""; json_tree := None |}).
  cbn zeta in H.
  assert ((run (DeploySamples.provider 204 "") []
             (deploy_to_render Samples.cfg DeploySamples.project "/ws/repos/shop")).1
          = (None, "Render API 204: ")) as E by (by vm_compute).
  rewrite E in H. discriminate H; [done|done|by vm_compute|cbn; lia].
Qed.

(** *** The self-healing retry loop *)

Lemma post_with_backoff_calls (w : world) (payload : Payload)
    (service_name : string) (attempts : list Z) :
  ∀ hist, Forall deploy_call
            (run w hist (post_with_backoff payload service_name attempts)).2.
Proof.
  induction attempts as [|i rest IH]; intros hist; [auto with trace|].
  cbn [post_with_backoff]. apply trace_bind; [by apply trace_trigger|].
  rewrite run_trigger. cbn [fst snd].
  destruct (w _ hist _) as [msg|resp]; [auto with trace|].
  case_bool_decide; [auto with trace|].
  destruct (status_code resp =? 429); [|auto with trace].
  apply trace_bind; [by apply trace_trigger|]. apply IH.
Qed.

Lemma deploy_to_render_calls (cfg : Config) (w : world) (project : Project)
    (project_dir : string) (hist : list call) :
  Forall deploy_call (run w hist (deploy_to_render cfg project project_dir)).2.
Proof.
  unfold deploy_to_render.
  destruct (negb _); [auto with trace|].
  apply trace_bind.
  - unfold build_render_payload. apply trace_bind; [by apply trace_trigger|].
    auto with trace.
  - destruct (DRY_RUN cfg); [auto with trace|]. apply post_with_backoff_calls.
Qed.

Lemma deploy_call_healing_ok (project : Project) (project_dir : string)
    (c : call) :
  deploy_call c → healing_call_ok project project_dir c.
Proof.
  destruct c as [X e x]. unfold deploy_call, healing_call_ok, is_agent_call.
  by destruct e.
Qed.

Lemma retry_loop_calls (cfg : Config) (w : world) (project : Project)
    (project_dir : string) (max_retries : Z) (attempts : list Z) :
  ∀ hist,
    Forall (healing_call_ok project project_dir)
      (run w hist (retry_loop cfg project project_dir max_retries attempts)).2.
Proof.
  induction attempts as [|attempt rest IH]; intros hist; [auto with trace|].
  cbn [retry_loop]. apply trace_bind.
  { eapply Forall_impl; [apply deploy_to_render_calls|].
    apply deploy_call_healing_ok. }
  set (r := (run w hist (deploy_to_render cfg project project_dir)).1).
  destruct (url_truthy r.1); [auto with trace|].
  destruct (Py.truthy r.2) eqn:Herr; cbn [negb orb]; [|auto with trace].
  destruct (max_retries <=? attempt); [auto with trace|].
  destruct (is_rate_limit_error r.2) eqn:Hrate; [auto with trace|].
  apply trace_bind.
  { apply trace_trigger. intros answer _. exists r.2, answer.
    repeat split; [|done]. intros E. by rewrite E in Herr. }
  rewrite run_trigger. cbn [fst snd].
  destruct (w _ _ _).1; [|auto with trace].
  apply trace_bind; [|apply IH].
  apply trace_trigger. by intros x.
Qed.

Lemma retry_loop_stops_on_rate_limit (cfg : Config) (w : world)
    (project : Project) (project_dir : string) (max_retries attempt : Z)
    (rest : list Z) (hist : list call) (error_text : string) :
  (run w hist (deploy_to_render cfg project project_dir)).1 = (None, error_text) →
  is_rate_limit_error error_text = true →
  run w hist (retry_loop cfg project project_dir max_retries (attempt :: rest))
  = (None, (run w hist (deploy_to_render cfg project project_dir)).2).
Proof.
  intros Hres Hrate. cbn [retry_loop]. rewrite run_bind. cbn zeta.
  rewrite Hres. cbn [fst snd url_truthy]. rewrite Hrate.
  destruct (negb (Py.truthy error_text) || (max_retries <=? attempt));
    cbn [run fst snd]; by rewrite app_nil_r.
Qed.

(** C5. At every iteration of the loop of [deploy_with_retry], a deployment
    attempt that fails with an error text carrying a rate-limit indicator
    ("rate limit" in its lower-cased form, or "Rate limit" in the text) ends
    the loop with no URL and no call beyond those of the attempt itself; and
    every call of the agent made during [deploy_with_retry] is a fix-prompt
    call whose embedded error text is non-empty and carries no rate-limit
    indicator. *)
Theorem deploy_with_retry_never_heals_rate_limit (cfg : Config) (w : world)
    (project : Project) (project_dir : string) (max_retries : Z) :
  (∀ (hist : list call) (attempt : Z) (rest : list Z) (error_text : string),
     (run w hist (deploy_to_render cfg project project_dir)).1
     = (None, error_text) →
     is_rate_limit_error error_text = true →
     run w hist (retry_loop cfg project project_dir max_retries (attempt :: rest))
     = (None, (run w hist (deploy_to_render cfg project project_dir)).2))
  ∧ (∀ (hist : list call) (c : call),
       c ∈ (run w hist (deploy_with_retry cfg project project_dir max_retries)).2 →
       is_agent_call c = true →
       ∃ error_text answer,
         c = Call (RunClaudeCode project_dir
                     (FixPrompt error_text (name project)) 15) answer
         ∧ error_text ≠ ""
         ∧ is_rate_limit_error error_text = false).
Proof.
  split.
  - intros hist attempt rest error_text. apply retry_loop_stops_on_rate_limit.
  - intros hist c Hin. unfold deploy_with_retry in Hin.
    pose proof (retry_loop_calls cfg w project project_dir max_retries
                  (retry_attempts max_retries) hist) as Hall.
    rewrite Forall_forall in Hall. exact (Hall c Hin).
Qed.

Lemma deploy_with_retry_never_heals_rate_limit_witness :
  (∃ error_text answer,
     Call (RunClaudeCode "/ws/repos/shop"
             (FixPrompt "Render API 400: invalid serviceDetails" "shop") 15)
          (true, "")
     = Call (RunClaudeCode "/ws/repos/shop" (FixPrompt error_text "shop") 15)
            answer
     ∧ error_text ≠ ""
     ∧ is_rate_limit_error error_text = false)
  ∧ (run (DeploySamples.provider 429 "slow down") []
       (deploy_with_retry Samples.cfg DeploySamples.project "/ws/repos/shop" 2)).1
    = None.
Proof.
  split.
  - apply (proj2 (deploy_with_retry_never_heals_rate_limit Samples.cfg
                    (DeploySamples.provider 400 "invalid serviceDetails")
                    DeploySamples.project "/ws/repos/shop" 2) []).
    + apply list_elem_of_In. vm_compute. right. right. left. reflexivity.
    + reflexivity.
  - unfold deploy_with_retry.
    change (retry_attempts 2) with [1; 2].
    rewrite (proj1 (deploy_with_retry_never_heals_rate_limit Samples.cfg
                      (DeploySamples.provider 429 "slow down")
                      DeploySamples.project "/ws/repos/shop" 2)
               [] 1 [2] "Rate limit exceeded after retries");
      reflexivity.
Defined.

(** *** One repository *)

Section Orchestrator.

Context (cfg : Config) (w : world).

Lemma should_skip_repo_reason (repo : Repo) (reason : string) :
  should_skip_repo repo = (true, reason) →
  reason ∈ ["In skip list"; "Fork"; "Archived"; "Empty repo"].
Proof.
  unfold should_skip_repo.
  repeat match goal with |- context [if ?b then _ else _] => destruct b end;
    intros [= <-]; rewrite !elem_of_cons; auto 10.
Qed.

Lemma cached_project_Some (n : string) (manifest : Manifest)
    (existing : Project) :
  cached_project cfg n manifest = Some existing ↔
  SKIP_EXISTING cfg = true
  ∧ projects manifest !! n = Some existing
  ∧ (status existing = DEPLOYED ∨ status existing = ALREADY_LIVE).
Proof.
  unfold cached_project.
  destruct (SKIP_EXISTING cfg); [|by split; [|intros (? & _)]].
  destruct (projects manifest !! n) as [p|]; [|by split; [|intros (_ & ? & _)]].
  case_bool_decide as Hs; rewrite !elem_of_cons, elem_of_nil in Hs.
  - split; [intros [= ->]|intros (_ & [= ->] & _)]; [|done].
    repeat split; tauto.
  - split; [done|]. intros (_ & [= ->] & H). tauto.
Qed.

(** C4, as amended. The ledger is consulted first: with skip-existing on, a
    repository recorded as deployed or already live is answered with its
    ledger record as it is and no call is made, whatever its name, fork flag,
    archived flag or size. Only when that short-circuit does not apply do the
    skip checks decide: a repository they reject comes back as a fresh record
    with status skipped and the reason, again without any call. *)
Theorem process_repo_ledger_then_skip_checks (hist : list call) (repo : Repo)
    (manifest : Manifest) :
  (∀ existing,
     SKIP_EXISTING cfg = true →
     projects manifest !! repo_name repo = Some existing →
     status existing = DEPLOYED ∨ status existing = ALREADY_LIVE →
     run w hist (process_repo cfg repo manifest) = (existing, []))
  ∧ (∀ reason,
       SKIP_EXISTING cfg = false
       ∨ (∀ existing, projects manifest !! repo_name repo = Some existing →
            status existing ≠ DEPLOYED ∧ status existing ≠ ALREADY_LIVE) →
       should_skip_repo repo = (true, reason) →
       run w hist (process_repo cfg repo manifest)
       = (set_skip_reason reason (set_status SKIPPED (fresh_project repo)), [])
       ∧ reason ∈ ["In skip list"; "Fork"; "Archived"; "Empty repo"]).
Proof.
  split.
  - intros existing Hskip Hlook Hst. unfold process_repo.
    by rewrite (proj2 (cached_project_Some _ manifest existing)).
  - intros reason Hmiss Hsk. split; [|by eapply should_skip_repo_reason].
    unfold process_repo.
    destruct (cached_project cfg (repo_name repo) manifest) as [p|] eqn:Hc.
    { apply cached_project_Some in Hc as (Hon & Hlook & Hst).
      destruct Hmiss as [Hoff|Hno]; [congruence|].
      destruct (Hno p Hlook). tauto. }
    by rewrite Hsk.
Qed.

(** **** The record invariant *)

Lemma app_nonempty (a b : string) : a ≠ "" → a +:+ b ≠ "".
Proof. by destruct a. Qed.

Lemma match_url_nonempty (s m : string) : match_url s = Some m → m ≠ "".
Proof.
  unfold match_url.
  destruct (Py.startswith s "https://").
  { destruct (url_span _); [done|]. intros [= <-]. by apply app_nonempty. }
  destruct (Py.startswith s "http://"); [|done].
  destruct (url_span _); [done|]. intros [= <-]. by apply app_nonempty.
Qed.

Lemma findall_urls_from_nonempty (s : string) :
  ∀ (skip : nat) (m : string), m ∈ findall_urls_from skip s → m ≠ "".
Proof.
  induction s as [|c s IH]; intros skip m; cbn [findall_urls_from].
  - by intros ?%elem_of_nil.
  - destruct skip as [|k]; [|apply IH].
    destruct (match_url (String c s)) as [u|] eqn:Hm; [|apply IH].
    intros [->|Hin]%elem_of_cons; [by eapply match_url_nonempty|].
    by eapply IH.
Qed.

Lemma get_candidate_urls_nonempty (repo : Repo) (u : string) :
  u ∈ get_candidate_urls cfg repo → u ≠ "".
Proof.
  unfold get_candidate_urls, dedupe. rewrite dedupe_from_elem_of.
  intros [Hin _]. apply elem_of_app in Hin as [Hin|Hin];
    [|by eapply findall_urls_from_nonempty].
  assert (∀ l : list string, u ∈ l ++ default [] (h ← repo_homepage repo;
            Some (if Py.truthy h && Py.startswith h "http" then [h] else [])) →
          (∀ x, x ∈ l → x ≠ "") → u ≠ "") as Haux.
  { intros l [Hl|Hh]%elem_of_app Hne; [by apply Hne|].
    destruct (repo_homepage repo) as [h|]; cbn in Hh; [|by apply elem_of_nil in Hh].
    destruct (Py.truthy h) eqn:Ht; cbn in Hh; [|by apply elem_of_nil in Hh].
    destruct (Py.startswith h "http"); [|by apply elem_of_nil in Hh].
    apply list_elem_of_singleton in Hh as ->. by destruct h. }
  eapply Haux.
  - destruct (repo_homepage repo) as [h|]; cbn.
    + destruct (Py.truthy h && Py.startswith h "http"); [exact Hin|].
      rewrite app_nil_r. exact Hin.
    + rewrite app_nil_r. exact Hin.
  - intros x Hx. rewrite !elem_of_cons, elem_of_nil in Hx.
    destruct Hx as [->|[->|[->|[->|[]]]]]; by apply app_nonempty.
Qed.

Lemma find_existing_deployment_url (hist : list call) (repo : Repo) :
  let found := (run w hist (find_existing_deployment cfg repo)).1 in
  found.1 = true → found.2 ≠ "".
Proof.
  cbn zeta. intros Hlive.
  unfold find_existing_deployment in *.
  destruct (probe_candidates_spec w (get_candidate_urls cfg repo) hist)
    as [(Hr & _)|(b & u & a & tr & c & Hl & Hr & _)].
  - rewrite Hr in Hlive. done.
  - rewrite Hr. cbn. apply (get_candidate_urls_nonempty repo).
    rewrite Hl. apply elem_of_app. right. by left.
Qed.

Lemma record_classification_status cls fallback repo p :
  status (record_classification cls fallback repo p) = status p.
Proof. unfold record_classification. by destruct (negb _). Qed.
Lemma record_classification_deploy_url cls fallback repo p :
  deploy_url (record_classification cls fallback repo p) = deploy_url p.
Proof. unfold record_classification. by destruct (negb _). Qed.
Lemma record_classification_skip_reason cls fallback repo p :
  skip_reason (record_classification cls fallback repo p) = skip_reason p.
Proof. unfold record_classification. by destruct (negb _). Qed.
Lemma record_classification_error cls fallback repo p :
  error (record_classification cls fallback repo p) = error p.
Proof. unfold record_classification. by destruct (negb _). Qed.

Lemma record_invariant_fields (p : Project) (st url reason err : string) :
  status p = st → deploy_url p = url → skip_reason p = reason → error p = err →
  (st = DEPLOYED ∨ st = ALREADY_LIVE → url ≠ "") →
  (st = SKIPPED → reason ≠ "") →
  (st = FAILED → err ≠ "") →
  record_invariant p.
Proof. intros <- <- <- <-. by unfold record_invariant. Qed.

Ltac status_cases :=
  unfold DEPLOYED, ALREADY_LIVE, SKIPPED, FAILED, COMPLETED, PENDING;
  try solve [intuition discriminate].

Lemma process_repo_keeps_invariant (hist : list call) (repo : Repo)
    (manifest : Manifest) :
  ledger_invariant manifest →
  record_invariant (run w hist (process_repo cfg repo manifest)).1.
Proof.
  intros Hledger. unfold process_repo. fold (fresh_project repo).
  destruct (cached_project cfg (repo_name repo) manifest) as [p|] eqn:Hc.
  { apply cached_project_Some in Hc as (_ & Hlook & _).
    exact (Hledger _ _ Hlook). }
  destruct (should_skip_repo repo) as [[] reason] eqn:Hsk; cbn [fst snd].
  { pose proof (should_skip_repo_reason _ _ Hsk) as Hr.
    eapply record_invariant_fields; [reflexivity..| | |]; status_cases.
    intros _. cbn. rewrite !elem_of_cons, elem_of_nil in Hr.
    destruct Hr as [->|[->|[->|[->|[]]]]]; done. }
  apply result_bind.
  pose proof (find_existing_deployment_url hist repo) as Hurl.
  cbn zeta in Hurl.
  destruct (run w hist (find_existing_deployment cfg repo)) as [[live url] tr0].
  cbn [fst snd] in *. destruct live.
  { do 2 apply result_bind. cbn [run fst snd].
    eapply record_invariant_fields;
      [apply record_classification_status|apply record_classification_deploy_url
      |apply record_classification_skip_reason|apply record_classification_error
      | | |]; cbn; status_cases. }
  apply result_bind.
  set (cls := (run w _ (classify_repo_from_api cfg repo)).1).
  set (tr1 := (run w _ (classify_repo_from_api cfg repo)).2).
  set (project := record_classification cls "other" repo (fresh_project repo)).
  assert (status project = PENDING ∧ deploy_url project = ""
          ∧ skip_reason project = "" ∧ error project = "") as (Hs & Hd & Hk & He).
  { unfold project.
    by rewrite record_classification_status, record_classification_deploy_url,
      record_classification_skip_reason, record_classification_error. }
  destruct (file_count (cls_signals cls) <=? 1).
  { cbn [run fst]. eapply record_invariant_fields; [reflexivity..| | |];
      status_cases. }
  destruct (DRY_RUN cfg).
  { apply result_bind. cbn [run fst].
    eapply record_invariant_fields; [reflexivity..| | |]; status_cases. }
  apply result_bind. rewrite run_trigger. cbn [fst snd].
  destruct (w _ _ (CloneRepo _ _)) as [e|[]].
  { cbn [run fst]. eapply record_invariant_fields; [reflexivity..| | |];
      status_cases. }
  apply result_bind.
  match goal with |- context [negb ?b] => destruct b end; cbn [negb].
  2:{ cbn [run fst]. eapply record_invariant_fields; [reflexivity..| | |];
        status_cases. }
  do 2 apply result_bind.
  match goal with |- context [url_truthy ?d] => destruct d as [u|] eqn:Hdep end;
    cbn [url_truthy default].
  - destruct (Py.truthy u) eqn:Hu; apply result_bind; cbn [run fst].
    + eapply record_invariant_fields; [reflexivity..| | |]; status_cases.
      intros _. cbn. by intros ->.
    + eapply record_invariant_fields; [reflexivity..| | |]; status_cases.
  - apply result_bind; cbn [run fst].
    eapply record_invariant_fields; [reflexivity..| | |]; status_cases.
Qed.

Lemma reset_entry_invariant (p : Project) :
  record_invariant p → record_invariant (reset_entry p).
Proof.
  intros Hp. unfold reset_entry. case_bool_decide; [|done].
  unfold record_invariant. cbn. status_cases.
Qed.

(** **** A failed file-tree fetch *)

Lemma fetch_files_raises (hist : list call) (n : string) :
  fetch_raises cfg w hist n → (run w hist (fetch_files cfg n)).1 = ∅.
Proof.
  unfold fetch_raises, fetch_files. cbn zeta.
  intros [(msg & Hmain)|(resp & msg & Hmain & H404 & Hmaster)];
    rewrite run_bind, run_trigger; cbn [fst snd]; rewrite Hmain; [done|].
  rewrite H404, Z.eqb_refl, run_bind, run_trigger. cbn [fst snd].
  by rewrite Hmaster.
Qed.

Lemma fetch_files_calls (hist : list call) (n : string) :
  Forall (λ c, later_phase_call c = false) (run w hist (fetch_files cfg n)).2.
Proof.
  unfold fetch_files. apply trace_bind; [by apply trace_trigger|].
  rewrite run_trigger. cbn [fst snd].
  destruct (w _ hist _) as [msg|resp]; [auto with trace|].
  destruct (status_code resp =? 404); [|auto with trace].
  apply trace_bind; [by apply trace_trigger|].
  rewrite run_trigger. cbn [fst snd].
  destruct (w _ _ _); auto with trace.
Qed.

Lemma probe_candidates_calls (candidates : list string) :
  ∀ hist, Forall (λ c, later_phase_call c = false)
            (run w hist (probe_candidates candidates)).2.
Proof.
  induction candidates as [|u rest IH]; intros hist; [auto with trace|].
  cbn [probe_candidates]. apply trace_bind.
  { rewrite run_check_url_live. cbn. by repeat constructor. }
  destruct (run w hist (check_url_live u)).1; [auto with trace|apply IH].
Qed.

(** C10. For a repository that the ledger short-circuit and the skip checks
    let through and for which no candidate URL is live, if the file-tree
    request raises (for [main], or for [master] after a 404), the classifier
    sees no file (file count 0), [process_repo] returns a skipped record with
    reason "Empty or README-only repo", and the run makes no clone, quick-fix,
    agent, push, descriptor-read, POST or sleep call. *)
Theorem tree_fetch_failure_skips (hist : list call) (repo : Repo)
    (manifest : Manifest) :
  cached_project cfg (repo_name repo) manifest = None →
  (should_skip_repo repo).1 = false →
  let probe := run w hist (find_existing_deployment cfg repo) in
  probe.1.1 = false →
  fetch_raises cfg w (hist ++ probe.2) (repo_name repo) →
  let cls := (run w (hist ++ probe.2) (classify_repo_from_api cfg repo)).1 in
  let r := run w hist (process_repo cfg repo manifest) in
  file_count (cls_signals cls) = 0
  ∧ status r.1 = SKIPPED
  ∧ skip_reason r.1 = "Empty or README-only repo"
  ∧ Forall (λ c, later_phase_call c = false) r.2.
Proof.
  intros Hc Hsk probe Hprobe Hraise cls r.
  assert (file_count (cls_signals cls) = 0) as Hcount.
  { unfold cls. rewrite run_classify_repo_from_api, fetch_files_raises by done.
    reflexivity. }
  split; [done|].
  unfold r, process_repo. rewrite Hc, Hsk, run_bind. fold probe.
  cbn zeta. rewrite Hprobe, run_bind. cbn zeta.
  unfold cls in Hcount. rewrite Hcount. cbn [Z.leb Z.compare run fst snd].
  split; [done|]. split; [done|].
  rewrite app_nil_r. apply Forall_app. split.
  - apply probe_candidates_calls.
  - unfold classify_repo_from_api. apply trace_bind; [|auto with trace].
    apply fetch_files_calls.
Qed.

End Orchestrator.

Lemma process_repo_ledger_then_skip_checks_witness :
  (should_skip_repo OrchestratorSamples.forked).1 = true
  ∧ run Samples.offline [] (process_repo Samples.cfg OrchestratorSamples.forked
                              OrchestratorSamples.ledger)
    = (OrchestratorSamples.deployed_shop, []).
Proof.
  split; [reflexivity|].
  apply (proj1 (process_repo_ledger_then_skip_checks Samples.cfg Samples.offline
                  [] OrchestratorSamples.forked OrchestratorSamples.ledger)).
  - reflexivity.
  - apply lookup_insert_eq.
  - by left.
Defined.

(** C4, as stated, fails: a fork that the ledger records as deployed is
    returned with status deployed, not skipped. *)
Lemma cached_fork_is_not_skipped :
  ¬ (∀ (cfg : Config) (w : world) (hist : list call) (repo : Repo)
       (manifest : Manifest),
       (should_skip_repo repo).1 = true →
       status (run w hist (process_repo cfg repo manifest)).1 = SKIPPED).
Proof.
  intros H.
  specialize (H Samples.cfg Samples.offline [] OrchestratorSamples.forked
                OrchestratorSamples.ledger eq_refl).
  vm_compute in H. discriminate.
Qed.


(** C6. For every ledger the program produces (from the default of
    [load_manifest] through reset passes, stores of processed repositories,
    GIF paths and the updates of [portfolio_url] and [last_run]), every
    record of the ledger and every record [process_repo] returns for it, in
    any world, satisfies: status deployed or already-live implies a non-empty
    [deploy_url]; status skipped implies a non-empty [skip_reason]; status
    failed implies a non-empty [error]. *)
Theorem process_repo_record_invariant (manifest : Manifest) :
  produced manifest →
  ledger_invariant manifest
  ∧ ∀ (cfg : Config) (w : world) (hist : list call) (repo : Repo),
      record_invariant (run w hist (process_repo cfg repo manifest)).1.
Proof.
  intros Hp.
  assert (ledger_invariant manifest) as Hinv;
    [|split; [done|]; intros; by apply process_repo_keeps_invariant].
  induction Hp as [|m Hm IH|cfg w hist repo m Hm IH|n m Hm IH|url now m Hm IH];
    unfold ledger_invariant in *; cbn [projects].
  - apply map_Forall_empty.
  - intros k p. cbn. rewrite lookup_fmap.
    destruct (projects m !! k) as [q|] eqn:Hq; [|done].
    intros [= <-]. apply reset_entry_invariant. exact (IH _ _ Hq).
  - cbn. apply map_Forall_insert_2; [|exact IH].
    by apply process_repo_keeps_invariant.
  - intros k p. rewrite lookup_alter. case_decide as Hk; [|apply IH].
    subst k. destruct (projects m !! n) as [q|] eqn:Hq; [|done].
    intros [= <-]. exact (IH _ _ Hq).
  - exact IH.
Qed.

Lemma process_repo_record_invariant_witness :
  record_invariant
    (run Samples.offline []
       (process_repo Samples.cfg (Samples.repo "blog" None)
          (store_project
             (run OrchestratorSamples.shop_deploys []
                (process_repo Samples.cfg OrchestratorSamples.shop
                   empty_manifest)).1
             empty_manifest))).1
  ∧ status (run OrchestratorSamples.shop_deploys []
              (process_repo Samples.cfg OrchestratorSamples.shop
                 empty_manifest)).1 = DEPLOYED.
Proof.
  split; [|by vm_compute].
  apply (process_repo_record_invariant
           (store_project
              (run OrchestratorSamples.shop_deploys []
                 (process_repo Samples.cfg OrchestratorSamples.shop
                    empty_manifest)).1
              empty_manifest)).
  apply produced_store, produced_empty.
Defined.

Lemma tree_fetch_failure_skips_witness :
  let r := run Samples.offline []
             (process_repo Samples.cfg (Samples.repo "blog" None) empty_manifest) in
  status r.1 = SKIPPED
  ∧ skip_reason r.1 = "Empty or README-only repo"
  ∧ Forall (λ c, later_phase_call c = false) r.2.
Proof.
  refine (proj2 (tree_fetch_failure_skips Samples.cfg Samples.offline []
                   (Samples.repo "blog" None) empty_manifest _ _ _ _)).
  - reflexivity.
  - reflexivity.
  - reflexivity.
  - left. by eexists.
Defined.

(* ===================================================================== *)
(** ** Further properties *)
(* ===================================================================== *)

(** *** Candidate URLs *)











Lemma dedupe_from_id (urls : list string) :
  ∀ seen : gset string,
    NoDup urls → (∀ x, x ∈ urls → x ∉ seen) → dedupe_from seen urls = urls.
Proof.
  induction urls as [|u rest IH]; intros seen Hnd Hdisj; [done|].
  apply NoDup_cons in Hnd as [Hu Hnd]. cbn.
  rewrite bool_decide_eq_false_2 by (apply Hdisj; by left).
  f_equal. apply IH; [done|].
  intros x Hx. rewrite not_elem_of_union, not_elem_of_singleton. split.
  - intros ->. done.
  - apply Hdisj. by right.
Qed.

(** X2. [list(dict.fromkeys(urls))] keeps exactly the URLs of the list, each
    once, in the order of their first occurrences: the head stays in front
    and its later copies are dropped from the deduplicated rest. A list
    without duplicates comes back unchanged, so deduplicating twice is the
    same as once. *)
Theorem dedupe_first_occurrences (urls : list string) :
  NoDup (dedupe urls)
  ∧ (∀ x, x ∈ dedupe urls ↔ x ∈ urls)
  ∧ (∀ u rest, urls = u :: rest →
       dedupe urls = u :: filter (λ x, x ≠ u) (dedupe rest))
  ∧ (NoDup urls → dedupe urls = urls)
  ∧ dedupe (dedupe urls) = dedupe urls.
Proof.
  assert (∀ l, NoDup l → dedupe l = l) as Hid.
  { intros l Hl. apply dedupe_from_id; [done|].
    intros x _. apply not_elem_of_empty. }
  split; [apply dedupe_from_NoDup|]. split.
  { intros x. unfold dedupe. rewrite dedupe_from_elem_of.
    split; [tauto|]. intros ?. split; [done|apply not_elem_of_empty]. }
  split; [intros u rest ->; apply dedupe_cons|].
  split; [apply Hid|]. apply Hid, dedupe_from_NoDup.
Qed.

Lemma dedupe_first_occurrences_witness :
  dedupe ["a"; "b"; "a"; "c"; "b"] = ["a"; "b"; "c"]
  ∧ dedupe ["a"; "b"; "c"] = ["a"; "b"; "c"].
Proof.
  split; [by vm_compute|].
  apply (proj1 (proj2 (proj2 (proj2 (dedupe_first_occurrences ["a"; "b"; "c"]))))).
  apply NoDup_ListNoDup. repeat constructor; cbn; intuition discriminate.
Defined.

(** X3. The candidate list of a repository has no duplicates and no empty
    URL, starts with the GitHub Pages URL with its trailing slash, and holds
    exactly: the two Pages URLs, the two onrender.com guesses, the homepage
    when it starts with [http], and every URL found in the description. *)
Theorem get_candidate_urls_spec (cfg : Config) (repo : Repo) :
  let candidates := get_candidate_urls cfg repo in
  let n := repo_name repo in
  let username := Py.lower (GITHUB_USERNAME cfg) in
  NoDup candidates
  ∧ head candidates
    = Some ("https://" +:+ username +:+ ".github.io/" +:+ n +:+ "/")
  ∧ (∀ u, u ∈ candidates ↔
       u ∈ [ "https://" +:+ username +:+ ".github.io/" +:+ n +:+ "/";
             "https://" +:+ username +:+ ".github.io/" +:+ n;
             "https://mh-" +:+ Py.take 30 n +:+ ".onrender.com";
             "https://" +:+ n +:+ ".onrender.com" ]
       ∨ (repo_homepage repo = Some u ∧ Py.startswith u "http" = true)
       ∨ u ∈ findall_urls (or_empty (repo_description repo)))
  ∧ (∀ u, u ∈ candidates → u ≠ "").
Proof.
  cbn zeta. split; [apply dedupe_from_NoDup|]. split.
  { unfold get_candidate_urls.
    destruct (repo_homepage repo) as [h|];
      [destruct (Py.truthy h && Py.startswith h "http")|];
      cbn [app]; by rewrite dedupe_cons. }
  split; [|intros u; apply get_candidate_urls_nonempty].
  intros u. unfold get_candidate_urls, dedupe. rewrite dedupe_from_elem_of.
  assert (u ∉ (∅ : gset string)) as Hempty by apply not_elem_of_empty.
  destruct (repo_homepage repo) as [h|].
  - destruct (Py.truthy h) eqn:Ht; cbn [andb].
    + destruct (Py.startswith h "http") eqn:Hh.
      * rewrite !elem_of_app, list_elem_of_singleton. split.
        -- intros [[[?| ->]|?] _]; [by left|right; by left|right; by right].
        -- intros [?|[[[= ->] _]|?]]; tauto.
      * rewrite elem_of_app. split.
        -- intros [[?|?] _]; [by left|right; by right].
        -- intros [?|[[[= ->] ?]|?]]; [tauto|congruence|tauto].
    + rewrite elem_of_app. split.
      * intros [[?|?] _]; [by left|right; by right].
      * intros [?|[[[= ->] ?]|?]]; [tauto| |tauto].
        by destruct u.
  - rewrite elem_of_app. split.
    + intros [[?|?] _]; [by left|right; by right].
    + intros [?|[[? _]|?]]; [tauto|done|tauto].
Qed.

Lemma length_app_str (a b : string) :
  String.length (a +:+ b) = (String.length a + String.length b)%nat.
Proof.
  induction a as [|c a IH]; [done|].
  change (String c a +:+ b) with (String c (a +:+ b)). cbn. by rewrite IH.
Qed.

Lemma length_take (n : nat) (s : string) :
  (String.length (Py.take n s) ≤ n)%nat.
Proof.
  revert s. induction n as [|n IH]; intros [|c s];
    unfold Py.take; fold Py.take; cbn [String.length]; try lia.
  specialize (IH s). lia.
Qed.

(** X4. The Render service name is [mh-] followed by at most the first 30
    characters of the project name, so it has at most 33 characters and the
    descriptor in the working copy never changes it; two projects whose
    names agree on their first 30 characters get the same service name and
    the same deployment URL. *)
Theorem service_name_truncates (cfg : Config) (p : Project) :
  (String.length (service_name_of p) ≤ 33)%nat
  ∧ (∀ config, payload_name (payload_of cfg p config) = service_name_of p)
  ∧ (∀ q, Py.take 30 (name p) = Py.take 30 (name q) →
       service_name_of p = service_name_of q
       ∧ onrender_url (service_name_of p) = onrender_url (service_name_of q)).
Proof.
  split.
  { unfold service_name_of. rewrite length_app_str.
    pose proof (length_take 30 (name p)). cbn. lia. }
  split; [intros config; apply payload_name_payload_of|].
  intros q Hq. unfold service_name_of. by rewrite Hq.
Qed.

Lemma service_name_truncates_witness :
  service_name_of
    (new_project "a-very-long-repository-name-for-the-shop-frontend" "" "" "" false)
  = service_name_of
      (new_project "a-very-long-repository-name-for-the-shop-backend" "" "" "" false).
Proof.
  apply (proj2 (proj2 (service_name_truncates Samples.cfg
    (new_project "a-very-long-repository-name-for-the-shop-frontend" "" "" "" false)))
    (new_project "a-very-long-repository-name-for-the-shop-backend" "" "" "" false)).
  reflexivity.
Defined.

(** *** Deployment: what is returned, and how many calls are made *)

Lemma count_calls_app (P : call → bool) (t1 t2 : list call) :
  count_calls P (t1 ++ t2) = (count_calls P t1 + count_calls P t2)%nat.
Proof. unfold count_calls. by rewrite filter_app, length_app. Qed.

Lemma count_calls_cons (P : call → bool) (c : call) (t : list call) :
  count_calls P (c :: t)
  = ((if P c then 1 else 0) + count_calls P t)%nat.
Proof.
  unfold count_calls. destruct (P c) eqn:Hc.
  - by rewrite filter_cons_True.
  - rewrite filter_cons_False; [done|]. by rewrite Hc.
Qed.

Lemma count_calls_none (P : call → bool) (t : list call) :
  Forall (λ c, P c = false) t → count_calls P t = 0%nat.
Proof.
  induction 1 as [|c t Hc _ IH]; [done|].
  by rewrite count_calls_cons, Hc, IH.
Qed.

Section DeploymentResults.

Context (cfg : Config) (w : world) (project : Project) (project_dir : string).

Lemma post_with_backoff_result (payload : Payload) (service_name : string)
    (attempts : list Z) :
  ∀ hist,
    let r := run w hist (post_with_backoff payload service_name attempts) in
    (r.1.1 = None ∨ r.1 = (Some (onrender_url service_name), ""))
    ∧ (count_calls is_post_call r.2 ≤ length attempts)%nat.
Proof.
  induction attempts as [|i rest IH]; intros hist; cbn zeta.
  { cbn. split; [by left|lia]. }
  cbn [post_with_backoff]. rewrite run_bind, run_trigger. cbn zeta.
  cbn [fst snd]. rewrite count_calls_app, count_calls_cons. cbn [length].
  change (is_post_call (Call (RequestsPost _ _) _)) with true. cbv iota.
  change (count_calls is_post_call []) with 0%nat.
  destruct (w _ hist _) as [msg|resp].
  { cbn. split; [by left|lia]. }
  case_bool_decide.
  { cbn. split; [by right|lia]. }
  destruct (status_code resp =? 429).
  - rewrite run_bind, run_trigger. cbn zeta. cbn [fst snd].
    rewrite count_calls_app, count_calls_cons.
    change (is_post_call (Call (Sleep _) _)) with false. cbv iota.
    change (count_calls is_post_call []) with 0%nat.
    match goal with |- context [run w ?h (post_with_backoff _ _ rest)] =>
      destruct (IH h) as [Hres Hcount] end.
    split; [exact Hres|lia].
  - cbn. split; [by left|lia].
Qed.

Lemma deploy_to_render_result (hist : list call) :
  let r := run w hist (deploy_to_render cfg project project_dir) in
  (r.1.1 = None ∨ r.1 = (Some (onrender_url (service_name_of project)), ""))
  ∧ (count_calls is_post_call r.2 ≤ 3)%nat.
Proof.
  cbn zeta. unfold deploy_to_render.
  destruct (negb _). { cbn. split; [by left|lia]. }
  unfold build_render_payload.
  rewrite run_bind, run_bind, run_trigger. cbn zeta. cbn [fst snd run].
  rewrite payload_name_payload_of, app_nil_r, count_calls_app, count_calls_cons.
  change (is_post_call (Call (ReadRenderYaml _) _)) with false. cbv iota.
  change (count_calls is_post_call []) with 0%nat.
  destruct (DRY_RUN cfg). { cbn. split; [by right|lia]. }
  match goal with |- context [run w ?h (post_with_backoff ?p ?n (range 3))] =>
    destruct (post_with_backoff_result p n (range 3) h) as [Hres Hcount] end.
  cbn [length range seq map] in Hcount. split; [exact Hres|]. cbn in *. lia.
Qed.

(** X5. [deploy_to_render] without an API key makes no call at all and
    returns no URL with the error "No RENDER_API_KEY set"; with a key and in
    dry-run mode it only reads the descriptor and returns the service URL
    without posting. In every configuration a returned URL is the one derived
    from the service name and comes with an empty error, and one call posts
    at most three times. *)
Theorem deploy_to_render_shortcuts (hist : list call) :
  let r := run w hist (deploy_to_render cfg project project_dir) in
  (RENDER_API_KEY cfg = "" → r = ((None, "No RENDER_API_KEY set"), []))
  ∧ (RENDER_API_KEY cfg ≠ "" → DRY_RUN cfg = true →
       r = ((Some (onrender_url (service_name_of project)), ""),
            [Call (ReadRenderYaml project_dir)
                  (w _ hist (ReadRenderYaml project_dir))]))
  ∧ (∀ u e, r.1 = (Some u, e) →
       u = onrender_url (service_name_of project) ∧ e = "")
  ∧ (count_calls is_post_call r.2 ≤ 3)%nat.
Proof.
  cbn zeta. split; [|split; [|split]].
  - intros Hkey. unfold deploy_to_render. by rewrite Hkey.
  - intros Hkey Hdry. unfold deploy_to_render, build_render_payload.
    replace (Py.truthy (RENDER_API_KEY cfg)) with true
      by (by destruct (RENDER_API_KEY cfg)).
    cbn [negb]. rewrite run_bind, run_bind, run_trigger. cbn zeta.
    cbn [fst snd run]. by rewrite Hdry, payload_name_payload_of.
  - intros u e Hr. destruct (deploy_to_render_result hist) as [[Hn|Hs] _].
    + rewrite Hr in Hn. done.
    + rewrite Hr in Hs. by injection Hs as -> ->.
  - apply deploy_to_render_result.
Qed.

End DeploymentResults.

Lemma deploy_to_render_shortcuts_witness :
  run Samples.offline []
    (deploy_to_render
       (mkConfig "Mathew-Harvey" "" "" "" "/ws" true false)
       DeploySamples.project "/ws/repos/shop")
  = ((None, "No RENDER_API_KEY set"), []).
Proof.
  apply (proj1 (deploy_to_render_shortcuts
                  (mkConfig "Mathew-Harvey" "" "" "" "/ws" true false)
                  Samples.offline DeploySamples.project "/ws/repos/shop" [])).
  reflexivity.
Defined.

Lemma deploy_call_counts (t : list call) :
  Forall deploy_call t →
  count_calls is_agent_call t = 0%nat ∧ count_calls is_push_call t = 0%nat.
Proof.
  intros H. split; apply count_calls_none; eapply Forall_impl; try exact H;
    intros [X e x]; unfold deploy_call, is_agent_call, is_push_call; cbn;
    by destruct e.
Qed.

Section RetryBounds.

Context (cfg : Config) (w : world) (project : Project) (project_dir : string).

Lemma retry_loop_bounds (M n : nat) :
  ∀ (k : nat) (hist : list call),
    (k + n = M)%nat →
    let r := run w hist
               (retry_loop cfg project project_dir (Z.of_nat M)
                  (map (λ i, 1 + Z.of_nat i) (seq k n))) in
    (count_calls is_agent_call r.2 ≤ pred n)%nat
    ∧ (count_calls is_post_call r.2 ≤ 3 * n)%nat
    ∧ (count_calls is_push_call r.2 ≤ count_calls is_agent_call r.2)%nat
    ∧ (r.1 = None ∨ r.1 = Some (onrender_url (service_name_of project))).
Proof.
  induction n as [|n IH]; intros k hist Hk; cbn zeta.
  { cbn. repeat split; try lia. by left. }
  cbn [seq map retry_loop]. rewrite run_bind. cbn zeta. cbn [fst snd].
  destruct (deploy_to_render_result cfg w project project_dir hist)
    as [Hres Hposts].
  destruct (deploy_call_counts _
              (deploy_to_render_calls cfg w project project_dir hist))
    as [Hagents Hpushes].
  set (d := run w hist (deploy_to_render cfg project project_dir)) in *.
  rewrite !count_calls_app, Hagents, Hpushes.
  destruct (url_truthy d.1.1) eqn:Hurl.
  { cbn. repeat split; try lia.
    destruct Hres as [Hn|Hs]; [by rewrite Hn in Hurl|].
    right. by rewrite Hs. }
  destruct (negb (Py.truthy d.1.2) || (Z.of_nat M <=? 1 + Z.of_nat k)) eqn:Hstop.
  { cbn. repeat split; try lia. by left. }
  apply orb_false_iff in Hstop as [_ Hlt]. apply Z.leb_gt in Hlt.
  destruct (is_rate_limit_error d.1.2).
  { cbn. repeat split; try lia. by left. }
  rewrite run_bind, run_trigger. cbn zeta. cbn [fst snd].
  rewrite !count_calls_app, !count_calls_cons.
  change (count_calls ?P []) with 0%nat. cbn [is_agent_call is_post_call
    is_push_call call_event].
  destruct (w _ _ (RunClaudeCode _ _ _)).1.
  - rewrite run_bind, run_trigger. cbn zeta. cbn [fst snd].
    rewrite !count_calls_app, !count_calls_cons.
    change (count_calls ?P []) with 0%nat. cbn [is_agent_call is_post_call
      is_push_call call_event].
    match goal with |- context [run w ?h (retry_loop _ _ _ _ _)] =>
      destruct (IH (S k) h ltac:(lia)) as (Ha & Hp & Hu & Hr) end.
    repeat split; try lia. exact Hr.
  - cbn. repeat split; try lia. by left.
Qed.

(** X6. [deploy_with_retry] is bounded by its retry budget: it calls the
    agent at most [max_retries - 1] times, posts at most [3 * max_retries]
    times, pushes at most once per agent call, and returns either nothing or
    the URL derived from the service name; with a budget of zero or less it
    makes no call and returns nothing. *)
Theorem deploy_with_retry_bounds (hist : list call) (max_retries : Z) :
  let r := run w hist (deploy_with_retry cfg project project_dir max_retries) in
  (count_calls is_agent_call r.2 ≤ Z.to_nat (max_retries - 1))%nat
  ∧ (count_calls is_post_call r.2 ≤ 3 * Z.to_nat max_retries)%nat
  ∧ (count_calls is_push_call r.2 ≤ count_calls is_agent_call r.2)%nat
  ∧ (r.1 = None ∨ r.1 = Some (onrender_url (service_name_of project)))
  ∧ (max_retries ≤ 0 → r = (None, [])).
Proof.
  cbn zeta. unfold deploy_with_retry, retry_attempts.
  destruct (Z.le_gt_cases max_retries 0) as [Hle|Hgt].
  - replace (Z.to_nat max_retries) with 0%nat by lia. cbn.
    repeat split; try lia. by left.
  - destruct (retry_loop_bounds (Z.to_nat max_retries) (Z.to_nat max_retries)
                0 hist eq_refl) as (Ha & Hp & Hu & Hr).
    rewrite Z2Nat.id in * by lia.
    repeat split; try done; lia.
Qed.

(** X7. With no API key, [deploy_with_retry] with its default budget of 2
    still engages the agent: the first thing it does is one fix-prompt call
    on the error "No RENDER_API_KEY set"; nothing is posted, no further agent
    call follows, and the result is no URL. *)
Theorem missing_api_key_engages_agent (hist : list call) :
  RENDER_API_KEY cfg = "" →
  let r := run w hist (deploy_with_retry cfg project project_dir 2) in
  r.1 = None
  ∧ ∃ answer rest,
      r.2 = Call (RunClaudeCode project_dir
                    (FixPrompt "No RENDER_API_KEY set" (name project)) 15)
                 answer :: rest
      ∧ Forall (λ c, is_agent_call c = false ∧ is_post_call c = false) rest.
Proof.
  intros Hkey. cbn zeta. unfold deploy_with_retry.
  change (retry_attempts 2) with [1; 2]. cbn [retry_loop].
  unfold deploy_to_render. rewrite Hkey. cbn [Py.truthy negb bind].
  cbn [fst snd url_truthy Py.truthy negb orb Z.leb Z.compare Pos.compare
       Pos.compare_cont].
  change (is_rate_limit_error "No RENDER_API_KEY set") with false. cbv iota.
  rewrite run_bind, run_trigger. cbn zeta. cbn [fst snd].
  set (a := w _ hist (RunClaudeCode _ _ _)).
  destruct a.1.
  - rewrite run_bind, run_trigger. cbn.
    split; [done|]. eexists _, _. split; [reflexivity|].
    by repeat constructor.
  - cbn. split; [done|]. eexists _, _. split; [reflexivity|]. constructor.
Qed.

End RetryBounds.

Lemma deploy_with_retry_bounds_witness :
  run Samples.offline []
    (deploy_with_retry Samples.cfg DeploySamples.project "/ws/repos/shop" 0)
  = (None, []).
Proof.
  apply (proj2 (proj2 (proj2 (proj2
    (deploy_with_retry_bounds Samples.cfg Samples.offline
       DeploySamples.project "/ws/repos/shop" [] 0))))).
  lia.
Defined.

Lemma missing_api_key_engages_agent_witness :
  (run Samples.offline []
     (deploy_with_retry (mkConfig "Mathew-Harvey" "" "" "" "/ws" true false)
        DeploySamples.project "/ws/repos/shop" 2)).1 = None.
Proof.
  apply (missing_api_key_engages_agent
           (mkConfig "Mathew-Harvey" "" "" "" "/ws" true false)
           Samples.offline DeploySamples.project "/ws/repos/shop" []).
  reflexivity.
Defined.

(** *** The classifier: ranges and dead tests *)





(** X8. Whatever the declared language and the file set, the classifier
    returns a tier among 0, 1, 2, a deploy type among docker, python, node,
    static, and a category among web-app, api, static-site, cli-tool,
    other. *)
Theorem classify_files_ranges (language : string) (files : gset string) :
  let cls := classify_files language files in
  tier cls ∈ [0; 1; 2]
  ∧ deploy_type cls ∈ ["docker"; "python"; "node"; "static"]
  ∧ cls_category cls ∈ ["web-app"; "api"; "static-site"; "cli-tool"; "other"].
Proof.
  cbn zeta. unfold classify_files. cbn [tier deploy_type cls_category].
  set (s := derive_signals files). split; [|split].
  - unfold determine_tier.
    repeat match goal with |- context [if ?b then _ else _] => destruct b end;
      rewrite !elem_of_cons; auto.
  - unfold determine_deploy_type.
    repeat match goal with |- context [if ?b then _ else _] => destruct b end;
      rewrite !elem_of_cons; auto 10.
  - unfold determine_category.
    repeat match goal with |- context [if ?b then _ else _] => destruct b end;
      rewrite !elem_of_cons; auto 10.
Qed.


Lemma lower_char_idemp (c : ascii) : Py.lower_char (Py.lower_char c) = Py.lower_char c.
Proof. by destruct c as [[] [] [] [] [] [] [] []]. Qed.

Lemma lower_idemp (s : string) : Py.lower (Py.lower s) = Py.lower s.
Proof.
  induction s as [|c s IH]; [done|].
  unfold Py.lower; fold Py.lower. by rewrite lower_char_idemp, IH.
Qed.

Lemma files_of_response_lower (resp : Response) (f : string) :
  f ∈ files_of_response resp → Py.lower f = f.
Proof.
  unfold files_of_response.
  destruct (status_code resp =? 200); [|by intros ?%not_elem_of_empty].
  destruct (json_tree resp) as [tree|]; [|by intros ?%not_elem_of_empty].
  rewrite elem_of_list_to_set, list_elem_of_In, in_map_iff.
  intros (item & <- & _). apply lower_idemp.
Qed.

(** X10. The file set the classifier works on holds lower-cased paths only,
    whatever the API answers; so its tests for the names [Dockerfile] and
    [README.md] can never succeed, and only [dockerfile] and [readme.md]
    decide the Dockerfile and README signals. The fetch asks for the [main]
    tree first and for the [master] tree only after a 404, and makes no other
    call. *)
Theorem fetch_files_lower_case (cfg : Config) (w : world) (hist : list call)
    (n : string) :
  let r := run w hist (fetch_files cfg n) in
  (∀ f, f ∈ r.1 → Py.lower f = f)
  ∧ in_files "Dockerfile" r.1 = false
  ∧ in_files "README.md" r.1 = false
  ∧ has_dockerfile (derive_signals r.1) = in_files "dockerfile" r.1
  ∧ has_readme (derive_signals r.1) = in_files "readme.md" r.1
  ∧ (r.2 = [Call (RequestsGet (tree_url cfg n "main") 10)
                 (w _ hist (RequestsGet (tree_url cfg n "main") 10))]
     ∨ ∃ resp answer,
         status_code resp = 404
         ∧ r.2 = [Call (RequestsGet (tree_url cfg n "main") 10) (Returned resp);
                  Call (RequestsGet (tree_url cfg n "master") 10) answer]).
Proof.
  cbn zeta.
  assert (∀ f, f ∈ (run w hist (fetch_files cfg n)).1 → Py.lower f = f) as Hlow.
  { unfold fetch_files. rewrite run_bind, run_trigger. cbn [fst snd].
    destruct (w _ hist _) as [msg|resp]; [by intros f ?%not_elem_of_empty|].
    destruct (status_code resp =? 404);
      [|intros f; apply files_of_response_lower].
    rewrite run_bind, run_trigger. cbn [fst snd].
    destruct (w _ _ _) as [msg|resp2]; [by intros f ?%not_elem_of_empty|].
    intros f. apply files_of_response_lower. }
  assert (in_files "Dockerfile" (run w hist (fetch_files cfg n)).1 = false
          ∧ in_files "README.md" (run w hist (fetch_files cfg n)).1 = false)
    as [Hd Hr].
  { split; apply bool_decide_eq_false_2; intros Hin%Hlow; discriminate. }
  split; [done|]. split; [done|]. split; [done|].
  split; [unfold derive_signals; cbn [has_dockerfile];
          by rewrite Hd, orb_false_r|].
  split; [unfold derive_signals; cbn [has_readme];
          by rewrite Hr, orb_false_r|].
  unfold fetch_files. rewrite run_bind, run_trigger. cbn [fst snd].
  destruct (w _ hist _) as [msg|resp] eqn:Hmain; [left; by cbn|].
  destruct (Z.eqb_spec (status_code resp) 404) as [H404|H404];
    [|left; by cbn].
  right. rewrite run_bind, run_trigger. cbn [fst snd].
  exists resp,
    (w _ (hist ++ [Call (RequestsGet (tree_url cfg n "main") 10) (Returned resp)])
       (RequestsGet (tree_url cfg n "master") 10)).
  split; [done|]. clear Hmain. by destruct (w _ (hist ++ _) _); cbn.
Qed.

Lemma optional_tag_sublist (b : bool) (t : string) :
  (if b then [t] else []) `sublist_of` [t].
Proof. destruct b; [done|]. apply sublist_nil_l. Qed.

(** X11. The tech stack is the capitalised declared language, when one is
    declared, followed by the file-evidence tags; the evidence tags are a
    subsequence of HTML, CSS, JavaScript, React, Python, C#, so they come in
    that order and none is repeated. The guard on the declared language
    never filters it out. *)
Theorem build_tech_stack_spec (language : string) (s : Signals) :
  build_tech_stack language s
  = (if Py.truthy language then [Py.capitalize language] else [])
    ++ evidence_tags s
  ∧ evidence_tags s
    `sublist_of` ["HTML"; "CSS"; "JavaScript"; "React"; "Python"; "C#"].
Proof.
  split.
  - destruct language as [|c l] eqn:Hl; [done|].
    by rewrite declared_language_always_inserted.
  - unfold evidence_tags.
    change ["HTML"; "CSS"; "JavaScript"; "React"; "Python"; "C#"]
      with (["HTML"] ++ ["CSS"] ++ ["JavaScript"] ++ ["React"] ++ ["Python"]
            ++ ["C#"]).
    repeat apply sublist_app; apply optional_tag_sublist.
Qed.

(** *** One repository: the record that is built *)

Lemma record_classification_name cls fallback repo p :
  name (record_classification cls fallback repo p) = name p.
Proof. unfold record_classification. by destruct (negb _). Qed.
Lemma record_classification_github_url cls fallback repo p :
  github_url (record_classification cls fallback repo p) = github_url p.
Proof. unfold record_classification. by destruct (negb _). Qed.
Lemma record_classification_is_fork cls fallback repo p :
  is_fork (record_classification cls fallback repo p) = is_fork p.
Proof. unfold record_classification. by destruct (negb _). Qed.

Lemma built_for_fields (cfg : Config) (repo : Repo) (r : Project) (st : string) :
  name r = repo_name repo →
  github_url r = repo_html_url repo →
  is_fork r = repo_fork repo →
  status r = st →
  st ∈ outcome_statuses →
  (st = DEPLOYED →
   deploy_url r = "https://mh-" +:+ Py.take 30 (repo_name repo) +:+ ".onrender.com") →
  (DRY_RUN cfg = true → st ≠ DEPLOYED ∧ st ≠ FAILED) →
  built_for cfg repo r.
Proof. intros ? ? ? <- ? ? ?. by unfold built_for. Qed.

Ltac outcome :=
  unfold outcome_statuses, DEPLOYED, ALREADY_LIVE, SKIPPED, FAILED, COMPLETED;
  rewrite ?elem_of_cons, ?elem_of_nil;
  try solve [intuition (discriminate || congruence || auto 10)].

Section FreshRecord.

Context (cfg : Config) (w : world).

Lemma process_repo_builds (hist : list call) (repo : Repo) (manifest : Manifest) :
  cached_project cfg (repo_name repo) manifest = None →
  built_for cfg repo (run w hist (process_repo cfg repo manifest)).1.
Proof.
  intros Hc. unfold process_repo. rewrite Hc. fold (fresh_project repo).
  destruct (should_skip_repo repo) as [[] reason] eqn:Hsk; cbn [fst snd].
  { eapply built_for_fields; [reflexivity..| | |]; outcome. }
  apply result_bind.
  destruct (run w hist (find_existing_deployment cfg repo)) as [[live url] tr0].
  cbn [fst snd]. destruct live.
  { do 2 apply result_bind. cbn [run fst snd].
    eapply built_for_fields;
      [apply record_classification_name|apply record_classification_github_url
      |apply record_classification_is_fork|apply record_classification_status
      | | |]; cbn; outcome. }
  apply result_bind.
  set (cls := (run w _ (classify_repo_from_api cfg repo)).1).
  set (tr1 := (run w _ (classify_repo_from_api cfg repo)).2).
  set (project := record_classification cls "other" repo (fresh_project repo)).
  assert (name project = repo_name repo ∧ github_url project = repo_html_url repo
          ∧ is_fork project = repo_fork repo) as (Hn & Hg & Hf).
  { unfold project.
    by rewrite record_classification_name, record_classification_github_url,
      record_classification_is_fork. }
  destruct (file_count (cls_signals cls) <=? 1).
  { cbn [run fst]. eapply built_for_fields; [done..|reflexivity| | |]; outcome. }
  destruct (DRY_RUN cfg) eqn:Hdry.
  { apply result_bind. cbn [run fst].
    eapply built_for_fields; [done..|reflexivity| | |]; outcome. }
  apply result_bind. rewrite run_trigger. cbn [fst snd].
  destruct (w _ _ (CloneRepo _ _)) as [e|[]].
  { cbn [run fst]. eapply built_for_fields; [done..|reflexivity| | |]; outcome. }
  apply result_bind.
  match goal with |- context [negb ?b] => destruct b end; cbn [negb].
  2:{ cbn [run fst]. eapply built_for_fields; [done..|reflexivity| | |]; outcome. }
  do 2 apply result_bind.
  match goal with |- context [run w ?h (deploy_with_retry cfg ?p ?d 2)] =>
    destruct (retry_loop_bounds cfg w p d 2 2 0 h eq_refl) as (_ & _ & _ & Hres);
    change (map (λ i : nat, 1 + Z.of_nat i) (seq 0 2)) with (retry_attempts 2) in Hres;
    change (Z.of_nat 2) with 2 in Hres;
    fold (deploy_with_retry cfg p d 2) in Hres;
    destruct (run w h (deploy_with_retry cfg p d 2)).1 as [u|] eqn:Hdep
  end; cbn [url_truthy default].
  - destruct Hres as [?|[= ->]]; [done|].
    destruct (Py.truthy _) eqn:Hu; apply result_bind; cbn [run fst].
    + eapply built_for_fields; [done..|reflexivity| | |]; outcome.
      intros _. cbn [deploy_url set_completed_at set_status set_deploy_url default].
      unfold service_name_of, onrender_url. cbn [name set_status].
      by rewrite Hn.
    + eapply built_for_fields; [done..|reflexivity| | |]; outcome.
  - apply result_bind; cbn [run fst].
    eapply built_for_fields; [done..|reflexivity| | |]; outcome.
Qed.

End FreshRecord.

Section Outcomes.

Context (cfg : Config) (w : world).

(** X12. A record that [process_repo] builds itself (the ledger
    short-circuit did not apply) carries the repository's name, web URL and
    fork flag, and its status is one of skipped, already-live, completed,
    failed, deployed: never pending or analysing. In dry-run mode it is never
    deployed or failed. *)
Theorem process_repo_outcome (hist : list call) (repo : Repo)
    (manifest : Manifest) :
  cached_project cfg (repo_name repo) manifest = None →
  let r := (run w hist (process_repo cfg repo manifest)).1 in
  name r = repo_name repo
  ∧ github_url r = repo_html_url repo
  ∧ is_fork r = repo_fork repo
  ∧ status r ∈ [SKIPPED; ALREADY_LIVE; COMPLETED; FAILED; DEPLOYED]
  ∧ status r ≠ PENDING ∧ status r ≠ ANALYSING
  ∧ (DRY_RUN cfg = true → status r ≠ DEPLOYED ∧ status r ≠ FAILED).
Proof.
  intros Hc. cbn zeta.
  destruct (process_repo_builds cfg w hist repo manifest Hc)
    as (Hn & Hg & Hf & Hs & _ & Hdry).
  split; [done|]. split; [done|]. split; [done|]. split; [exact Hs|].
  split; [|split; [|exact Hdry]].
  - intros E. rewrite E in Hs. revert Hs. unfold PENDING. outcome.
  - intros E. rewrite E in Hs. revert Hs. unfold ANALYSING. outcome.
Qed.

(** X13. The URL recorded for a repository that [process_repo] deploys is
    the onrender.com address of the service name, and it is one of the
    candidate URLs the liveness probe tries for that same repository. *)
Theorem deployed_url_is_a_candidate (hist : list call) (repo : Repo)
    (manifest : Manifest) :
  cached_project cfg (repo_name repo) manifest = None →
  let r := (run w hist (process_repo cfg repo manifest)).1 in
  status r = DEPLOYED →
  deploy_url r = "https://mh-" +:+ Py.take 30 (repo_name repo) +:+ ".onrender.com"
  ∧ deploy_url r ∈ get_candidate_urls cfg repo.
Proof.
  intros Hc. cbn zeta. intros Hs.
  destruct (process_repo_builds cfg w hist repo manifest Hc)
    as (_ & _ & _ & _ & Hurl & _).
  rewrite (Hurl Hs). split; [done|].
  unfold get_candidate_urls, dedupe. rewrite dedupe_from_elem_of.
  split; [|apply not_elem_of_empty].
  apply elem_of_app. left.
  destruct (repo_homepage repo) as [h|];
    [destruct (Py.truthy h && Py.startswith h "http")|];
    rewrite ?elem_of_app, !elem_of_cons; auto 10.
Qed.

Lemma later_phase_ships_nothing (c : call) :
  later_phase_call c = false → ships_nothing c.
Proof. destruct c as [X e x]. by destruct e. Qed.

(** X14. In dry-run mode [process_repo] only catalogues: whatever the
    ledger, the repository and the answers of the outside world, it makes no
    clone, quick-fix, agent, push, descriptor-read, POST or sleep call; only
    GET requests and clock reads. *)
Theorem dry_run_catalogues_only (hist : list call) (repo : Repo)
    (manifest : Manifest) :
  DRY_RUN cfg = true →
  Forall (λ c, later_phase_call c = false)
    (run w hist (process_repo cfg repo manifest)).2.
Proof.
  intros Hdry. unfold process_repo.
  destruct (cached_project _ _ _); [auto with trace|].
  destruct (should_skip_repo repo).1; [auto with trace|].
  apply trace_bind; [apply probe_candidates_calls|].
  destruct (run w hist (find_existing_deployment cfg repo)).1.1.
  { apply trace_bind; [by apply trace_trigger|].
    apply trace_bind; [|auto with trace].
    unfold classify_repo_from_api. apply trace_bind; [|auto with trace].
    apply fetch_files_calls. }
  apply trace_bind.
  { unfold classify_repo_from_api. apply trace_bind; [|auto with trace].
    apply fetch_files_calls. }
  destruct (file_count _ <=? 1); [auto with trace|].
  rewrite Hdry. apply trace_bind; [by apply trace_trigger|auto with trace].
Qed.

Lemma healing_call_within (project : Project) (dir n : string) (c : call) :
  name project = n →
  healing_call_ok project dir c → agent_call_within dir n c.
Proof.
  intros Hn Hok. unfold agent_call_within.
  destruct c as [X e x]. destruct e; try done.
  destruct (Hok eq_refl) as (error_text & answer & Hc & _).
  cbn. inversion Hc. subst. auto.
Qed.

(** X15. Every agent call that [process_repo] makes, for completion or for
    a deployment fix, runs in the repository's working copy
    [WORKSPACE/repos/<name>], is about that repository, and gets a budget of
    15 or 30 turns. *)
Theorem agent_calls_are_budgeted (hist : list call) (repo : Repo)
    (manifest : Manifest) :
  Forall (agent_call_within (WORKSPACE cfg +:+ "/repos/" +:+ repo_name repo)
            (repo_name repo))
    (run w hist (process_repo cfg repo manifest)).2.
Proof.
  assert (∀ c, later_phase_call c = false →
            agent_call_within (WORKSPACE cfg +:+ "/repos/" +:+ repo_name repo)
              (repo_name repo) c) as Hearly.
  { intros [X e x]. by destruct e. }
  assert (∀ h, Forall (agent_call_within
                         (WORKSPACE cfg +:+ "/repos/" +:+ repo_name repo)
                         (repo_name repo))
                 (run w h (classify_repo_from_api cfg repo)).2) as Hcls.
  { intros h. unfold classify_repo_from_api.
    apply trace_bind; [|auto with trace].
    eapply Forall_impl; [apply fetch_files_calls|exact Hearly]. }
  unfold process_repo. fold (fresh_project repo).
  destruct (cached_project _ _ _); [auto with trace|].
  destruct (should_skip_repo repo).1; [auto with trace|].
  apply trace_bind.
  { eapply Forall_impl; [apply probe_candidates_calls|exact Hearly]. }
  destruct (run w hist (find_existing_deployment cfg repo)).1.1.
  { apply trace_bind; [by apply trace_trigger|].
    apply trace_bind; [apply Hcls|auto with trace]. }
  apply trace_bind; [apply Hcls|].
  destruct (file_count _ <=? 1); [auto with trace|].
  destruct (DRY_RUN cfg).
  { apply trace_bind; [by apply trace_trigger|auto with trace]. }
  apply trace_bind; [by apply trace_trigger|].
  rewrite run_trigger. cbn [fst snd].
  destruct (w _ _ (CloneRepo _ _)) as [e|[]]; [auto with trace|].
  apply trace_bind.
  { destruct (tier _ =? 0) eqn:Ht0.
    - apply trace_bind; [by apply trace_trigger|auto with trace].
    - unfold complete_project_tiered.
      destruct (tier _ <=? 0); [auto with trace|].
      apply trace_bind; [|auto with trace].
      apply trace_trigger. intros x. unfold agent_call_within. cbn.
      destruct (tier _ =? 1); cbn; auto. }
  match goal with |- context [negb ?b] => destruct b end; cbn [negb];
    [|auto with trace].
  apply trace_bind; [by apply trace_trigger|].
  apply trace_bind; [|apply trace_bind; [by apply trace_trigger|auto with trace]].
  unfold deploy_with_retry.
  eapply Forall_impl; [apply retry_loop_calls|].
  intros c. apply healing_call_within. cbn.
  apply record_classification_name.
Qed.

End Outcomes.

Lemma process_repo_outcome_witness :
  status (run OrchestratorSamples.shop_deploys []
            (process_repo Samples.cfg OrchestratorSamples.shop empty_manifest)).1
  ≠ PENDING.
Proof.
  refine (proj1 (proj2 (proj2 (proj2 (proj2
    (process_repo_outcome Samples.cfg OrchestratorSamples.shop_deploys []
       OrchestratorSamples.shop empty_manifest _)))))).
  reflexivity.
Defined.

Lemma deployed_url_is_a_candidate_witness :
  "https://mh-shop.onrender.com"
  ∈ get_candidate_urls Samples.cfg OrchestratorSamples.shop.
Proof.
  refine (proj2 (deployed_url_is_a_candidate Samples.cfg
            OrchestratorSamples.shop_deploys [] OrchestratorSamples.shop
            empty_manifest _ _)).
  - reflexivity.
  - by vm_compute.
Defined.

Lemma dry_run_catalogues_only_witness :
  Forall (λ c, later_phase_call c = false)
    (run OrchestratorSamples.shop_deploys []
       (process_repo (mkConfig "Mathew-Harvey" "" "rnd_key" "usr-1" "/ws" true true)
          OrchestratorSamples.shop empty_manifest)).2.
Proof.
  apply (dry_run_catalogues_only
           (mkConfig "Mathew-Harvey" "" "rnd_key" "usr-1" "/ws" true true)
           OrchestratorSamples.shop_deploys [] OrchestratorSamples.shop
           empty_manifest).
  reflexivity.
Defined.

Section Shipping.

Context (cfg : Config) (w : world).

Lemma joint_bind {A B : Type} (S : B → Prop) (P : call → Prop) (p : prog A)
    (f : A → prog B) (hist : list call) :
  Forall P (run w hist p).2 →
  (S (run w (hist ++ (run w hist p).2) (f (run w hist p).1)).1 →
   Forall P (run w (hist ++ (run w hist p).2) (f (run w hist p).1)).2) →
  S (run w hist (bind p f)).1 → Forall P (run w hist (bind p f)).2.
Proof.
  intros Hp Hf. rewrite run_bind. cbn. intros HS.
  apply Forall_app. split; [done|by apply Hf].
Qed.

(** X16. When the probe finds a live candidate for a repository that passed
    the ledger short-circuit and the skip checks, [process_repo] records it
    as already-live with exactly that URL, which is one of the repository's
    candidates, and does not touch the working copy: no clone, quick-fix,
    agent, push, descriptor-read, POST or sleep call is made. *)
Theorem already_live_is_left_alone (hist : list call) (repo : Repo)
    (manifest : Manifest) :
  cached_project cfg (repo_name repo) manifest = None →
  (should_skip_repo repo).1 = false →
  let probe := run w hist (find_existing_deployment cfg repo) in
  probe.1.1 = true →
  let r := run w hist (process_repo cfg repo manifest) in
  status r.1 = ALREADY_LIVE
  ∧ deploy_url r.1 = probe.1.2
  ∧ deploy_url r.1 ∈ get_candidate_urls cfg repo
  ∧ Forall (λ c, later_phase_call c = false) r.2.
Proof.
  intros Hc Hsk probe Hlive r.
  assert (probe.1.2 ∈ get_candidate_urls cfg repo) as Hcand.
  { unfold probe, find_existing_deployment in *.
    destruct (probe_candidates_spec w (get_candidate_urls cfg repo) hist)
      as [(Hr & _)|(b & u & a & tr & c & Hl & Hr & _)].
    - rewrite Hr in Hlive. done.
    - rewrite Hr, Hl. cbn. apply elem_of_app. right. by left. }
  unfold r, process_repo. rewrite Hc, Hsk, run_bind. fold probe. cbn zeta.
  rewrite Hlive, run_bind. cbn zeta. rewrite run_trigger. cbn [fst snd].
  rewrite run_bind. cbn zeta. cbn [run fst snd].
  rewrite record_classification_status, record_classification_deploy_url.
  split; [done|]. split; [done|]. split; [done|].
  rewrite app_nil_r. apply Forall_app. split; [apply probe_candidates_calls|].
  apply Forall_app. split; [by repeat constructor|].
  unfold classify_repo_from_api. apply trace_bind; [|auto with trace].
  apply fetch_files_calls.
Qed.

(** X17. A repository that comes out of [process_repo] as failed, skipped
    or already-live (the ledger short-circuit apart) has had nothing pushed
    and nothing posted to the provider: pushes and deployment requests happen
    only on the way to completed or deployed. *)
Theorem failures_ship_nothing (hist : list call) (repo : Repo)
    (manifest : Manifest) :
  let r := run w hist (process_repo cfg repo manifest) in
  cached_project cfg (repo_name repo) manifest = None →
  status r.1 ∈ [FAILED; SKIPPED; ALREADY_LIVE] →
  Forall ships_nothing r.2.
Proof.
  cbn zeta. intros Hc.
  assert (∀ h, Forall ships_nothing
                 (run w h (classify_repo_from_api cfg repo)).2) as Hcls.
  { intros h. unfold classify_repo_from_api.
    apply trace_bind; [|auto with trace].
    eapply Forall_impl; [apply fetch_files_calls|].
    apply later_phase_ships_nothing. }
  unfold process_repo. rewrite Hc. fold (fresh_project repo).
  destruct (should_skip_repo repo).1; [intros _; auto with trace|].
  apply (joint_bind (λ r : Project, status r ∈ [FAILED; SKIPPED; ALREADY_LIVE])).
  { eapply Forall_impl; [apply probe_candidates_calls|].
    apply later_phase_ships_nothing. }
  destruct (run w hist (find_existing_deployment cfg repo)).1.1.
  { intros _. apply trace_bind; [by apply trace_trigger|].
    apply trace_bind; [apply Hcls|auto with trace]. }
  apply (joint_bind (λ r : Project, status r ∈ [FAILED; SKIPPED; ALREADY_LIVE])); [apply Hcls|].
  destruct (file_count _ <=? 1); [intros _; auto with trace|].
  destruct (DRY_RUN cfg).
  { intros _. apply trace_bind; [by apply trace_trigger|auto with trace]. }
  apply (joint_bind (λ r : Project, status r ∈ [FAILED; SKIPPED; ALREADY_LIVE])); [by apply trace_trigger|].
  rewrite run_trigger. cbn [fst snd].
  destruct (w _ _ (CloneRepo _ _)) as [e|[]]; [intros _; auto with trace|].
  apply (joint_bind (λ r : Project, status r ∈ [FAILED; SKIPPED; ALREADY_LIVE])).
  { destruct (tier _ =? 0).
    - apply trace_bind; [by apply trace_trigger|auto with trace].
    - unfold complete_project_tiered.
      destruct (tier _ <=? 0); [auto with trace|].
      apply trace_bind; [by apply trace_trigger|auto with trace]. }
  match goal with |- context [negb ?b] => destruct b end; cbn [negb];
    [|intros _; auto with trace].
  intros Hst. exfalso. revert Hst.
  do 2 apply result_bind.
  match goal with |- context [url_truthy ?d] => destruct (url_truthy d) end;
    apply result_bind; cbn [run fst]; cbn; outcome.
Qed.

End Shipping.

Lemma already_live_is_left_alone_witness :
  let w := LivenessSamples.only "https://mathew-harvey.github.io/shop/"
             LivenessSamples.real_page in
  let r := run w [] (process_repo Samples.cfg OrchestratorSamples.shop
                       empty_manifest) in
  status r.1 = ALREADY_LIVE
  ∧ deploy_url r.1 = "https://mathew-harvey.github.io/shop/".
Proof.
  cbn zeta.
  destruct (already_live_is_left_alone Samples.cfg
              (LivenessSamples.only "https://mathew-harvey.github.io/shop/"
                 LivenessSamples.real_page)
              [] OrchestratorSamples.shop empty_manifest)
    as (Hs & Hu & _); [reflexivity|reflexivity|by vm_compute|].
  split; [exact Hs|]. rewrite Hu. by vm_compute.
Defined.

Lemma failures_ship_nothing_witness :
  Forall ships_nothing
    (run Samples.offline []
       (process_repo Samples.cfg OrchestratorSamples.shop empty_manifest)).2.
Proof.
  apply (failures_ship_nothing Samples.cfg Samples.offline []
           OrchestratorSamples.shop empty_manifest).
  - reflexivity.
  - apply list_elem_of_In. vm_compute. auto.
Defined.

(** *** The ledger across a run *)

Lemma reset_entry_idemp (p : Project) :
  reset_entry (reset_entry p) = reset_entry p.
Proof.
  destruct (decide (status p ∈ reset_statuses)) as [Hs|Hs].
  - rewrite (reset_entry_resets p Hs).
    rewrite reset_entry_resets; [reflexivity|].
    cbn. unfold reset_statuses. rewrite !elem_of_cons. auto.
  - assert (reset_entry p = p) as E
      by (unfold reset_entry; by rewrite bool_decide_eq_false_2).
    by rewrite !E.
Qed.

Lemma reset_entry_name (p : Project) : name (reset_entry p) = name p.
Proof. unfold reset_entry. by case_bool_decide. Qed.

(** X18. The reset pass is idempotent, and after it no ledger entry is
    failed, skipped, analysing or completed; an entry that is pending
    after it has empty [error] and [skip_reason]. *)
Theorem reset_manifest_for_retry_idempotent (manifest : Manifest) :
  reset_manifest_for_retry (reset_manifest_for_retry manifest)
  = reset_manifest_for_retry manifest
  ∧ ∀ n p,
      projects (reset_manifest_for_retry manifest) !! n = Some p →
      (status p ∉ [FAILED; SKIPPED; ANALYSING; COMPLETED])
      ∧ (status p = PENDING → error p = "" ∧ skip_reason p = "").
Proof.
  split.
  - unfold reset_manifest_for_retry. cbn [projects portfolio_url last_run].
    f_equal. rewrite <-map_fmap_compose. apply map_fmap_ext.
    intros n p _. apply reset_entry_idemp.
  - intros n p. cbn [reset_manifest_for_retry projects]. rewrite lookup_fmap.
    destruct (projects manifest !! n) as [q|]; [|done].
    intros [= <-]. unfold reset_entry. case_bool_decide as Hs.
    + cbn. split; [|done]. rewrite !elem_of_cons, elem_of_nil.
      unfold PENDING, FAILED, SKIPPED, ANALYSING, COMPLETED.
      intuition discriminate.
    + split.
      * intros Hin. apply Hs. unfold reset_statuses.
        rewrite !elem_of_cons in *. rewrite elem_of_nil in Hin. tauto.
      * intros Hp. exfalso. apply Hs. rewrite Hp. unfold reset_statuses.
        rewrite !elem_of_cons. auto.
Qed.

Lemma reset_keyed_by_name (manifest : Manifest) :
  keyed_by_name manifest → keyed_by_name (reset_manifest_for_retry manifest).
Proof.
  intros Hk n p. cbn. rewrite lookup_fmap.
  destruct (projects manifest !! n) as [q|] eqn:Hq; [|done].
  intros [= <-]. rewrite reset_entry_name. exact (Hk _ _ Hq).
Qed.

Lemma store_keyed_by_name (p : Project) (manifest : Manifest) :
  keyed_by_name manifest → keyed_by_name (store_project p manifest).
Proof. intros Hk. by apply map_Forall_insert_2. Qed.

Lemma process_repo_name (cfg : Config) (w : world) (hist : list call)
    (repo : Repo) (manifest : Manifest) :
  keyed_by_name manifest →
  name (run w hist (process_repo cfg repo manifest)).1 = repo_name repo.
Proof.
  intros Hk.
  destruct (cached_project cfg (repo_name repo) manifest) as [p|] eqn:Hc.
  - unfold process_repo. rewrite Hc. cbn.
    apply cached_project_Some in Hc as (_ & Hlook & _). exact (Hk _ _ Hlook).
  - by destruct (process_repo_builds cfg w hist repo manifest Hc) as (Hn & _).
Qed.

(** X19. Every ledger the program produces is keyed by name: each key is
    the [name] field of its record. On such a ledger [process_repo] always
    returns a record named after the repository, also when it returns the
    cached record, so the store in [main] replaces that repository's entry
    and no other. *)
Theorem produced_keyed_by_name (manifest : Manifest) :
  produced manifest →
  keyed_by_name manifest
  ∧ ∀ (cfg : Config) (w : world) (hist : list call) (repo : Repo),
      let p := (run w hist (process_repo cfg repo manifest)).1 in
      name p = repo_name repo
      ∧ ∀ n, n ≠ repo_name repo →
          projects (store_project p manifest) !! n = projects manifest !! n.
Proof.
  intros Hp.
  assert (keyed_by_name manifest) as Hk.
  { induction Hp as [|m Hm IH|cfg w hist repo m Hm IH|n m Hm IH|url now m Hm IH].
    - apply map_Forall_empty.
    - by apply reset_keyed_by_name.
    - by apply store_keyed_by_name.
    - intros k p. cbn. rewrite lookup_alter. case_decide as Hkn; [|apply IH].
      subst k. destruct (projects m !! n) as [q|] eqn:Hq; [|done].
      intros [= <-]. exact (IH _ _ Hq).
    - exact IH. }
  split; [done|]. intros cfg w hist repo. cbn zeta.
  pose proof (process_repo_name cfg w hist repo manifest Hk) as Hn.
  split; [done|]. intros n Hne. cbn. rewrite Hn. by apply lookup_insert_ne.
Qed.

Lemma produced_keyed_by_name_witness :
  name (run Samples.offline []
          (process_repo Samples.cfg OrchestratorSamples.forked
             (store_project
                (run OrchestratorSamples.shop_deploys []
                   (process_repo Samples.cfg OrchestratorSamples.shop
                      empty_manifest)).1
                empty_manifest))).1
  = "shop".
Proof.
  refine (proj1 (proj2 (produced_keyed_by_name _ _) Samples.cfg Samples.offline
                   [] OrchestratorSamples.forked)).
  apply produced_store, produced_empty.
Defined.

Lemma run_save_manifest (w : world) (hist : list call) (manifest : Manifest) :
  projects (run w hist (save_manifest manifest)).1 = projects manifest.
Proof. reflexivity. Qed.

Lemma count_project_counts (p : Project) (st : Stats) :
  processed (count_project p st) = S (processed st)
  ∧ (counted st ≤ counted (count_project p st) ≤ S (counted st))%nat.
Proof.
  unfold count_project, counted.
  repeat match goal with |- context [if ?b then _ else _] => destruct b end;
    cbn; lia.
Qed.

Section Sweep.

Context (cfg : Config) (w : world).

Lemma process_all_spec (repos : list Repo) :
  ∀ (manifest : Manifest) (st : Stats) (hist : list call),
    keyed_by_name manifest →
    let r := (run w hist (process_all cfg repos manifest st)).1 in
    keyed_by_name r.1
    ∧ dom (projects r.1)
      = dom (projects manifest) ∪ list_to_set (repo_name <$> repos)
    ∧ (∀ n, n ∉ repo_name <$> repos →
         projects r.1 !! n = projects manifest !! n)
    ∧ processed r.2 = (processed st + length repos)%nat
    ∧ (counted r.2 ≤ counted st + length repos)%nat
    ∧ (SKIP_EXISTING cfg = true →
       ∀ n p, projects manifest !! n = Some p →
              status p ∈ [DEPLOYED; ALREADY_LIVE] →
              projects r.1 !! n = Some p).
Proof.
  induction repos as [|repo rest IH]; intros manifest st hist Hk; cbn zeta.
  { cbn. repeat split; try done; try lia.
    by rewrite union_empty_r_L. }
  cbn [process_all]. rewrite run_bind. cbn zeta. cbn [fst snd].
  rewrite run_bind. cbn zeta. cbn [fst snd].
  set (p := (run w hist (process_repo cfg repo manifest)).1).
  set (tr := (run w hist (process_repo cfg repo manifest)).2).
  set (m1 := (run w (hist ++ tr) (save_manifest (store_project p manifest))).1).
  set (tr1 := (run w (hist ++ tr) (save_manifest (store_project p manifest))).2).
  assert (projects m1 = <[repo_name repo := p]> (projects manifest)) as Hm1.
  { unfold m1. rewrite run_save_manifest. cbn. unfold p.
    by rewrite (process_repo_name cfg w hist repo manifest Hk). }
  assert (keyed_by_name m1) as Hk1.
  { unfold keyed_by_name. rewrite Hm1. apply map_Forall_insert_2; [|done].
    apply (process_repo_name cfg w hist repo manifest Hk). }
  destruct (IH m1 (count_project p st) ((hist ++ tr) ++ tr1) Hk1)
    as (Hkr & Hdom & Hout & Hproc & Hcnt & Hsticky).
  destruct (count_project_counts p st) as [Hp1 Hp2].
  split; [done|]. split.
  { rewrite Hdom, Hm1, dom_insert_L, fmap_cons, list_to_set_cons.
    apply set_eq. intros x. rewrite !elem_of_union. tauto. }
  split.
  { intros n Hn. rewrite fmap_cons, not_elem_of_cons in Hn.
    destruct Hn as [Hne Hn]. rewrite (Hout n Hn), Hm1.
    by apply lookup_insert_ne. }
  split; [rewrite Hproc, Hp1; cbn [length]; lia|].
  split; [cbn [length]; lia|].
  intros Hskip n q Hq Hst. apply (Hsticky Hskip). 2: done.
  rewrite Hm1. destruct (decide (repo_name repo = n)) as [<-|Hne].
  - rewrite lookup_insert_eq. f_equal. unfold p, process_repo.
    rewrite (proj2 (cached_project_Some cfg _ manifest q)); [done|].
    rewrite !elem_of_cons, elem_of_nil in Hst. tauto.
  - by rewrite lookup_insert_ne.
Qed.

(** X20. With skip-existing on, a whole sweep (the reset pass, then every
    repository of the listing in turn) leaves each ledger entry that is
    deployed or already live exactly as it was, whatever the listing holds
    and whatever the outside world answers. *)
Theorem sweep_keeps_sticky_entries (hist : list call) (repos : list Repo)
    (manifest : Manifest) (n : string) (p : Project) :
  SKIP_EXISTING cfg = true →
  keyed_by_name manifest →
  projects manifest !! n = Some p →
  status p ∈ [DEPLOYED; ALREADY_LIVE] →
  projects (run w hist (main_sweep cfg repos manifest)).1.1 !! n = Some p.
Proof.
  intros Hskip Hk Hn Hst. unfold main_sweep.
  rewrite run_bind. cbn zeta. cbn [fst snd].
  set (m0 := (run w hist (save_manifest (reset_manifest_for_retry manifest))).1).
  assert (projects m0 = reset_entry <$> projects manifest) as Hm0 by done.
  assert (keyed_by_name m0) as Hk0.
  { unfold keyed_by_name. rewrite Hm0. by apply reset_keyed_by_name. }
  match goal with |- context [run w ?h (process_all cfg repos m0 no_stats)] =>
    destruct (process_all_spec repos m0 no_stats h Hk0) as (_ & _ & _ & _ & _ & Hs)
  end.
  apply (Hs Hskip); [|done].
  rewrite Hm0, lookup_fmap, Hn. cbn. f_equal. by apply reset_entry_sticky.
Qed.


End Sweep.

Lemma sweep_keeps_sticky_entries_witness :
  projects
    (run Samples.offline []
       (main_sweep Samples.cfg
          [OrchestratorSamples.forked; Samples.repo "blog" None]
          OrchestratorSamples.ledger)).1.1 !! "shop"
  = Some OrchestratorSamples.deployed_shop.
Proof.
  apply (sweep_keeps_sticky_entries Samples.cfg Samples.offline []
           [OrchestratorSamples.forked; Samples.repo "blog" None]
           OrchestratorSamples.ledger "shop" OrchestratorSamples.deployed_shop).
  - reflexivity.
  - apply map_Forall_insert_2; [done|apply map_Forall_empty].
  - apply lookup_insert_eq.
  - apply elem_of_cons. by left.
Defined.


(** *** JSON extraction *)

Lemma app_assoc_str (a b c : string) : (a +:+ b) +:+ c = a +:+ (b +:+ c).
Proof.
  induction a as [|x a IH]; [done|].
  change (String x a +:+ b) with (String x (a +:+ b)).
  change (String x (a +:+ b) +:+ c) with (String x ((a +:+ b) +:+ c)).
  by rewrite IH.
Qed.

Lemma app_nil_r_str (a : string) : a +:+ "" = a.
Proof.
  induction a as [|x a IH]; [done|].
  change (String x a +:+ "") with (String x (a +:+ "")). by rewrite IH.
Qed.

Lemma is_open_brace_eq (c : ascii) : is_open_brace c = true → c = "{"%char.
Proof. by destruct c as [[] [] [] [] [] [] [] []]. Qed.

Lemma is_close_brace_eq (c : ascii) : is_close_brace c = true → c = "}"%char.
Proof. by destruct c as [[] [] [] [] [] [] [] []]. Qed.

Lemma brace_candidates_from_shape (s : string) :
  ∀ (depth : Z) (cur : option string) (c : string),
    (∀ text, cur = Some text → ∃ r, text = "{" +:+ r) →
    c ∈ brace_candidates_from depth cur s →
    ∃ body, c = "{" +:+ body +:+ "}".
Proof.
  induction s as [|ch s IH]; intros depth cur c Hcur; cbn [brace_candidates_from].
  { by intros ?%elem_of_nil. }
  assert (∀ text, grow ch cur = Some text → ∃ r, text = "{" +:+ r) as Hgrow.
  { intros text. destruct cur as [t|]; [|done]. intros [= <-].
    destruct (Hcur t eq_refl) as [r ->]. exists (r +:+ String ch "").
    by rewrite app_assoc_str. }
  destruct (is_open_brace ch) eqn:Hopen.
  { apply IH. intros text. destruct (depth =? 0); [|apply Hgrow].
    intros [= <-]. exists "". by rewrite (is_open_brace_eq ch Hopen). }
  destruct (is_close_brace ch) eqn:Hclose; [|by apply IH].
  destruct (grow ch cur) as [candidate|] eqn:Hg; [|by apply IH].
  destruct (depth - 1 =? 0).
  - intros [->|Hin]%elem_of_cons; [|eapply IH; [|exact Hin]; done].
    destruct cur as [t|]; [|done]. injection Hg as <-.
    destruct (Hcur t eq_refl) as [r ->]. exists r.
    by rewrite (is_close_brace_eq ch Hclose), app_assoc_str.
  - apply IH. intros text [= <-]. by apply Hgrow.
Qed.

Lemma scan_brace_free (body : string) :
  ∀ (depth : Z) (cur : option string) (rest : string),
    brace_free body = true →
    brace_candidates_from depth cur (body +:+ rest)
    = brace_candidates_from depth
        (match cur with Some t => Some (t +:+ body) | None => None end) rest.
Proof.
  induction body as [|ch body IH]; intros depth cur rest Hfree.
  { change ("" +:+ rest) with rest.
    destruct cur as [t|]; [by rewrite app_nil_r_str|done]. }
  cbn [brace_free] in Hfree.
  apply andb_true_iff in Hfree as [[Ho Hc]%andb_true_iff Hfree].
  apply negb_true_iff in Ho, Hc.
  change (String ch body +:+ rest) with (String ch (body +:+ rest)).
  cbn [brace_candidates_from]. rewrite Ho, Hc, (IH _ _ _ Hfree).
  f_equal. destruct cur as [t|]; [|done]. cbn.
  rewrite app_assoc_str. done.
Qed.

(** X22. Every candidate of the brace scan opens with a brace and closes
    with one. A brace-free text between one pair of braces is found as the
    single candidate; but when a closing brace comes first in the output,
    the scan is one level off for good and the same object is no longer
    found. *)
Theorem brace_candidates_spec (output : string) :
  (∀ c, c ∈ brace_candidates output → ∃ body, c = "{" +:+ body +:+ "}")
  ∧ (∀ body, brace_free body = true →
       output = "{" +:+ body +:+ "}" →
       brace_candidates output = [output]
       ∧ brace_candidates ("}" +:+ output) = []).
Proof.
  split.
  { intros c. by apply brace_candidates_from_shape. }
  intros body Hfree ->. unfold brace_candidates. split.
  - change ("{" +:+ body +:+ "}") with (String "{" (body +:+ "}")) at 1.
    cbn [brace_candidates_from is_open_brace nat_of_ascii].
    change (is_open_brace "{") with true. cbv iota.
    change (0 =? 0) with true. cbv iota. cbn [grow].
    rewrite (scan_brace_free body _ _ "}" Hfree).
    cbn [brace_candidates_from].
    change (is_open_brace "}") with false.
    change (is_close_brace "}") with true. cbv iota. cbn [grow].
    change (0 + 1 - 1 =? 0) with true. cbv iota.
    change ("" +:+ "{") with "{". by rewrite app_assoc_str.
  - change ("}" +:+ "{" +:+ body +:+ "}")
      with (String "}" (String "{" (body +:+ "}"))).
    cbn [brace_candidates_from].
    change (is_open_brace "}") with false.
    change (is_close_brace "}") with true.
    change (is_open_brace "{") with true. cbv iota. cbn [grow].
    change (0 - 1 =? 0) with false. cbv iota.
    rewrite (scan_brace_free body _ _ "}" Hfree).
    cbn [brace_candidates_from].
    change (is_open_brace "}") with false.
    change (is_close_brace "}") with true. cbv iota. by cbn [grow].
Qed.

Lemma brace_candidates_spec_witness :
  brace_candidates "{1}" = ["{1}"] ∧ brace_candidates "}{1}" = [].
Proof.
  apply (proj2 (brace_candidates_spec "{1}") "1"); reflexivity.
Defined.

Lemma insert_by_len_elem_of (c x : string) (l : list string) :
  x ∈ insert_by_len c l ↔ x = c ∨ x ∈ l.
Proof.
  induction l as [|d l IH]; cbn.
  - rewrite list_elem_of_singleton, elem_of_nil. tauto.
  - destruct (_ <=? _)%nat; rewrite !elem_of_cons; [done|].
    rewrite IH. tauto.
Qed.

Lemma longest_first_elem_of (x : string) (l : list string) :
  x ∈ longest_first l ↔ x ∈ l.
Proof.
  induction l as [|c l IH]; [done|]. cbn.
  by rewrite insert_by_len_elem_of, elem_of_cons, IH.
Qed.

Lemma insert_by_len_sorted (c : string) (l : list string) :
  StronglySorted (λ a b, (String.length b ≤ String.length a)%nat) l →
  StronglySorted (λ a b, (String.length b ≤ String.length a)%nat)
    (insert_by_len c l).
Proof.
  induction 1 as [|d l Hl IH Hd]; cbn.
  - by repeat constructor.
  - destruct (Nat.leb_spec (String.length d) (String.length c)).
    + constructor; [by constructor|].
      constructor; [done|]. eapply Forall_impl; [exact Hd|].
      cbn. intros. lia.
    + constructor; [done|].
      apply Forall_forall. intros x [->|Hx]%insert_by_len_elem_of; [lia|].
      rewrite Forall_forall in Hd. by apply Hd.
Qed.

Lemma longest_first_sorted (l : list string) :
  StronglySorted (λ a b, (String.length b ≤ String.length a)%nat)
    (longest_first l).
Proof.
  induction l as [|c l IH]; [constructor|]. by apply insert_by_len_sorted.
Qed.

Section Decoding.

Context {J : Type} (loads : string → option J).

Lemma first_loads_spec (l : list string) :
  StronglySorted (λ a b, (String.length b ≤ String.length a)%nat) l →
  (first_loads loads l = None ∧ ∀ c, c ∈ l → loads c = None)
  ∨ ∃ c j, c ∈ l ∧ loads c = Some j ∧ first_loads loads l = Some j
           ∧ ∀ c', c' ∈ l → is_Some (loads c') →
                   (String.length c' ≤ String.length c)%nat.
Proof.
  induction 1 as [|d l Hl IH Hd]; cbn.
  { left. split; [done|]. by intros c ?%elem_of_nil. }
  destruct (loads d) as [j|] eqn:Hj.
  - right. exists d, j. split; [by left|]. repeat split; try done.
    intros c' [->|Hc']%elem_of_cons _; [done|].
    rewrite Forall_forall in Hd. by apply Hd.
  - destruct IH as [[Hn Hall]|(c & j & Hc & Hcj & Hf & Hmax)].
    + left. split; [done|]. intros c [->|Hc]%elem_of_cons; auto.
    + right. exists c, j. split; [by right|]. repeat split; try done.
      intros c' [->|Hc']%elem_of_cons Hs; [|by apply Hmax].
      rewrite Hj in Hs. by destruct Hs.
Qed.

(** X23. [extract_json_from_output] returns nothing for an empty output.
    When the first fenced block decodes, its value is the result, whatever
    the braces hold. Otherwise the result is the value of a brace candidate
    that decodes and is at least as long as every other candidate that
    decodes; there is no result exactly when no candidate decodes. *)
Theorem extract_json_from_output_spec (output : string) :
  let result := extract_json_from_output loads output in
  (output = "" → result = None)
  ∧ (∀ block j, output ≠ "" → fenced_block output = Some block →
       loads block = Some j → result = Some j)
  ∧ (output ≠ "" →
     (fenced_block output = None
      ∨ ∃ block, fenced_block output = Some block ∧ loads block = None) →
     (result = None ∧ ∀ c, c ∈ brace_candidates output → loads c = None)
     ∨ ∃ c j, c ∈ brace_candidates output ∧ loads c = Some j
              ∧ result = Some j
              ∧ ∀ c', c' ∈ brace_candidates output → is_Some (loads c') →
                      (String.length c' ≤ String.length c)%nat).
Proof.
  cbn zeta. unfold extract_json_from_output. split; [by intros ->|]. split.
  - intros block j Hne Hf Hj.
    replace (Py.truthy output) with true by (by destruct output).
    cbn [negb]. by rewrite Hf, Hj.
  - intros Hne Hfence.
    replace (Py.truthy output) with true by (by destruct output).
    cbn [negb].
    assert (match fenced_block output with
            | Some block =>
                match loads block with
                | Some j => Some j
                | None => first_loads loads (longest_first (brace_candidates output))
                end
            | None => first_loads loads (longest_first (brace_candidates output))
            end = first_loads loads (longest_first (brace_candidates output)))
      as ->.
    { destruct Hfence as [->|(block & -> & ->)]; done. }
    destruct (first_loads_spec _ (longest_first_sorted (brace_candidates output)))
      as [[Hn Hall]|(c & j & Hc & Hcj & Hf & Hmax)].
    + left. split; [done|]. intros c Hc. by apply Hall, longest_first_elem_of.
    + right. exists c, j. rewrite longest_first_elem_of in Hc.
      repeat split; try done.
      intros c' Hc'. by apply Hmax, longest_first_elem_of.
Qed.

End Decoding.

Lemma extract_json_from_output_spec_witness :
  extract_json_from_output JsonSamples.loads "```json {1} ``` then {}" = Some 1%nat.
Proof.
  apply (proj1 (proj2 (extract_json_from_output_spec JsonSamples.loads
                         "```json {1} ``` then {}")) "{1}" 1%nat).
  - discriminate.
  - by vm_compute.
  - reflexivity.
Defined.

(** *** Tier 0 remediation *)

Lemma quick_fix_files_lookup (project_name : string)
    (files : gmap string string) (path : string) :
  quick_fix_files project_name files !! path
  = match files !! path with
    | Some content => Some content
    | None =>
        if decide (path = "render.yaml") then Some (static_render_yaml project_name)
        else if decide (path = "README.md") then Some (stub_readme project_name)
        else None
    end.
Proof.
  unfold quick_fix_files.
  destruct (files !! "render.yaml") as [y|] eqn:Hy.
  - destruct (files !! "README.md") as [r|] eqn:Hr.
    + destruct (files !! path) as [c|] eqn:Hp; [done|].
      repeat case_decide; congruence.
    + destruct (decide (path = "README.md")) as [->|Hne].
      * by rewrite lookup_insert_eq, Hr.
      * rewrite lookup_insert_ne by done.
        destruct (files !! path) as [c|] eqn:Hp; [done|].
        repeat case_decide; congruence.
  - rewrite lookup_insert_ne by done.
    destruct (files !! "README.md") as [r|] eqn:Hr.
    + destruct (decide (path = "render.yaml")) as [->|Hne].
      * by rewrite lookup_insert_eq, Hy.
      * rewrite lookup_insert_ne by done.
        destruct (files !! path) as [c|] eqn:Hp; [done|].
        repeat case_decide; congruence.
    + destruct (decide (path = "README.md")) as [->|Hne].
      * by rewrite lookup_insert_eq, Hr.
      * rewrite lookup_insert_ne by done.
        destruct (decide (path = "render.yaml")) as [->|Hne'].
        -- by rewrite lookup_insert_eq, Hy.
        -- rewrite lookup_insert_ne by done. by destruct (files !! path).
Qed.

(** X24. The quick fix never overwrites: every file of the working copy
    keeps its content. Afterwards [render.yaml] and [README.md] both exist
    and no other path was added; a missing [render.yaml] is the static
    descriptor named after the project; and a second quick fix changes
    nothing. *)
Theorem quick_fix_files_spec (project_name : string)
    (files : gmap string string) :
  let fixed := quick_fix_files project_name files in
  (∀ path content, files !! path = Some content → fixed !! path = Some content)
  ∧ is_Some (fixed !! "render.yaml") ∧ is_Some (fixed !! "README.md")
  ∧ dom fixed = dom files ∪ {["render.yaml"; "README.md"]}
  ∧ (files !! "render.yaml" = None →
     fixed !! "render.yaml" = Some (static_render_yaml project_name))
  ∧ quick_fix_files project_name fixed = fixed.
Proof.
  cbn zeta.
  assert (is_Some (quick_fix_files project_name files !! "render.yaml")) as Hy.
  { rewrite quick_fix_files_lookup. destruct (files !! _); by eexists. }
  assert (is_Some (quick_fix_files project_name files !! "README.md")) as Hr.
  { rewrite quick_fix_files_lookup. destruct (files !! _); by eexists. }
  split; [intros path content Hp; by rewrite quick_fix_files_lookup, Hp|].
  split; [done|]. split; [done|]. split; [|split].
  - apply set_eq. intros x.
    rewrite elem_of_union, !elem_of_dom, quick_fix_files_lookup.
    rewrite elem_of_union, !elem_of_singleton.
    destruct (files !! x) as [c|].
    + split; [left|]; by eexists.
    + repeat case_decide; split; try tauto; try (by intros [??]);
        try (intros _; by eexists); intros [[??]|[?|?]]; done.
  - intros Hnone. by rewrite quick_fix_files_lookup, Hnone.
  - apply map_eq. intros path. rewrite quick_fix_files_lookup.
    destruct (quick_fix_files project_name files !! path) as [c|] eqn:Hp;
      [done|].
    destruct Hy as [y Hy], Hr as [r Hr].
    repeat case_decide; congruence.
Qed.

Lemma quick_fix_files_spec_witness :
  quick_fix_files "site" {["render.yaml" := "services: []"]} !! "render.yaml"
  = Some "services: []".
Proof.
  apply (proj1 (quick_fix_files_spec "site" {["render.yaml" := "services: []"]})).
  apply lookup_singleton_eq.
Defined.

(** *** generate_portfolio.py *)

Lemma sorted_items_elem_of (entries : gmap string Project) (n : string)
    (data : Project) :
  (n, data) ∈ sorted_items entries ↔ entries !! n = Some data.
Proof.
  unfold sorted_items. rewrite merge_sort_Permutation.
  apply elem_of_map_to_list.
Qed.

#[local] Instance item_le_total : Total item_le.
Proof. intros a b. unfold item_le. apply total, _. Qed.

#[local] Instance item_le_trans : Transitive item_le.
Proof. intros a b c. unfold item_le. apply transitivity. Qed.

Lemma live_project_name (gif_exists : string → bool) (item : string * Project)
    (lp : LiveProject) :
  live_project gif_exists item = Some lp → lp_name lp = item.1.
Proof. unfold live_project. destruct (_ && _); [|done]. by intros [= <-]. Qed.

Lemma live_names_sorted (gif_exists : string → bool)
    (items : list (string * Project)) :
  StronglySorted item_le items →
  StronglySorted String.le (lp_name <$> omap (live_project gif_exists) items).
Proof.
  induction 1 as [|item items Hs IH Hhd]; [constructor|]. cbn.
  destruct (live_project gif_exists item) as [lp|] eqn:Hlp; [|done].
  cbn. constructor; [done|].
  apply Forall_forall. intros n (lp' & -> & Hin)%list_elem_of_fmap.
  apply list_elem_of_omap in Hin as (item' & Hin & Hlp').
  rewrite (live_project_name _ _ _ Hlp), (live_project_name _ _ _ Hlp').
  rewrite Forall_forall in Hhd. exact (Hhd item' Hin).
Qed.

Lemma live_names_NoDup (gif_exists : string → bool)
    (items : list (string * Project)) :
  NoDup items.*1 →
  NoDup (lp_name <$> omap (live_project gif_exists) items).
Proof.
  induction items as [|item items IH]; [constructor|].
  rewrite fmap_cons, NoDup_cons. intros [Hnotin Hnd]. cbn.
  destruct (live_project gif_exists item) as [lp|] eqn:Hlp; [|by apply IH].
  cbn. constructor; [|by apply IH].
  intros (lp' & Hn & Hin)%list_elem_of_fmap.
  apply list_elem_of_omap in Hin as (item' & Hin & Hlp').
  apply Hnotin. apply list_elem_of_fmap. exists item'. split; [|done].
  by rewrite <-(live_project_name _ _ _ Hlp), Hn, (live_project_name _ _ _ Hlp').
Qed.

(** X26. The portfolio script lists exactly the ledger entries whose status
    is already-live or deployed and whose deploy URL is not empty, one
    element per entry, under the ledger key; a listed project has a
    non-empty URL and category, and its description falls back to its
    name. *)
Theorem live_projects_spec (gif_exists : string → bool) (manifest : Manifest)
    (lp : LiveProject) :
  lp ∈ live_projects gif_exists manifest ↔
  ∃ data,
    projects manifest !! lp_name lp = Some data
    ∧ status data ∈ ["already-live"; "deployed"]
    ∧ deploy_url data ≠ ""
    ∧ lp = {| lp_name := lp_name lp;
              lp_deploy_url := deploy_url data;
              lp_github_url := github_url data;
              lp_description := if Py.truthy (description data)
                                then description data else lp_name lp;
              lp_category := if Py.truthy (category data)
                             then category data else "other";
              lp_tech_stack := tech_stack data;
              lp_status := status data;
              lp_gif_url := if gif_exists (lp_name lp)
                            then "gifs/" +:+ lp_name lp +:+ ".gif" else "" |}.
Proof.
  unfold live_projects. rewrite list_elem_of_omap. split.
  - intros ([n data] & Hin & Hlp).
    apply sorted_items_elem_of in Hin.
    pose proof (live_project_name _ _ _ Hlp) as Hn. cbn in Hn. subst n.
    unfold live_project in Hlp. cbn [fst snd] in Hlp.
    destruct (bool_decide _) eqn:Hs; [|done].
    destruct (Py.truthy (deploy_url data)) eqn:Hu; [|done].
    cbn [andb] in Hlp. injection Hlp as Hlp.
    exists data. apply bool_decide_eq_true in Hs.
    split; [done|]. split; [done|].
    split; [intros E; by rewrite E in Hu|].
    rewrite <-Hlp. cbn. done.
  - intros (data & Hlook & Hs & Hu & Hlp).
    exists (lp_name lp, data). split; [by apply sorted_items_elem_of|].
    unfold live_project. cbn [fst snd].
    rewrite (bool_decide_eq_true_2 _ Hs).
    replace (Py.truthy (deploy_url data)) with true
      by (by destruct (deploy_url data)).
    cbn [andb]. f_equal. symmetry. exact Hlp.
Qed.

Lemma live_projects_spec_witness :
  ∃ lp, lp ∈ live_projects (λ _, false) OrchestratorSamples.ledger
        ∧ lp_name lp = "shop"
        ∧ lp_deploy_url lp = "https://mh-shop.onrender.com".
Proof.
  eexists {| lp_name := "shop" |}. split; [|done].
  apply (proj2 (live_projects_spec (λ _, false) OrchestratorSamples.ledger _)).
  exists OrchestratorSamples.deployed_shop.
  split; [apply lookup_insert_eq|]. split; [apply elem_of_cons; by right; left|].
  split; [done|]. reflexivity.
Defined.

(** X27. The listed projects come in ascending order of their names, and
    no name is listed twice. *)
Theorem live_projects_sorted (gif_exists : string → bool)
    (manifest : Manifest) :
  StronglySorted String.le (lp_name <$> live_projects gif_exists manifest)
  ∧ NoDup (lp_name <$> live_projects gif_exists manifest).
Proof.
  unfold live_projects, sorted_items. split.
  - apply live_names_sorted, StronglySorted_merge_sort; apply _.
  - apply live_names_NoDup.
    rewrite merge_sort_Permutation. apply NoDup_fst_map_to_list.
Qed.

(** X28. On a ledger that satisfies the record invariant, as every ledger
    the program produces does, the script's test for a non-empty URL drops
    nothing: each deployed or already-live entry of the ledger is listed,
    with its own deploy URL. The already-live count never exceeds the
    total. *)
Theorem live_projects_lists_every_deployment (gif_exists : string → bool)
    (manifest : Manifest) :
  ledger_invariant manifest →
  (∀ n data,
     projects manifest !! n = Some data →
     status data = DEPLOYED ∨ status data = ALREADY_LIVE →
     ∃ lp, lp ∈ live_projects gif_exists manifest
           ∧ lp_name lp = n ∧ lp_deploy_url lp = deploy_url data
           ∧ lp_status lp = status data)
  ∧ (already_live_total (live_projects gif_exists manifest)
     ≤ total_live (live_projects gif_exists manifest))%nat.
Proof.
  intros Hinv. split; [|apply length_filter].
  intros n data Hlook Hst.
  destruct (Hinv n data Hlook) as (Hurl & _).
  eexists {| lp_name := n |}. split; [|done].
  apply live_projects_spec. exists data. cbn [lp_name].
  split; [done|]. split.
  { rewrite !elem_of_cons. unfold DEPLOYED, ALREADY_LIVE in Hst. tauto. }
  split; [by apply Hurl|]. reflexivity.
Qed.

Lemma live_projects_lists_every_deployment_witness :
  ∃ lp, lp ∈ live_projects (λ _, true) OrchestratorSamples.ledger
        ∧ lp_name lp = "shop"
        ∧ lp_deploy_url lp = "https://mh-shop.onrender.com"
        ∧ lp_status lp = DEPLOYED.
Proof.
  refine (proj1 (live_projects_lists_every_deployment (λ _, true)
                   OrchestratorSamples.ledger _)
            "shop" OrchestratorSamples.deployed_shop _ _).
  - apply map_Forall_insert_2; [|apply map_Forall_empty].
    unfold record_invariant. cbn. repeat split; discriminate.
  - apply lookup_insert_eq.
  - by left.
Defined.
